(** * A shallow embedding of the [log] package (log.go, syslog.go, logger.go)

    The package wraps zap's sugared logger.  The embedding keeps the
    package's own code (options, [NewLogger], [withWrapCore],
    [getZapLogLevel], the facade methods, [With], the setters) as Rocq
    functions over an explicit [World]: the heap cells the code shares
    through pointers ([zap.AtomicLevel], [*lumberjack.Logger]) and the
    trace of records handed to the sinks.  The parts of zap that the
    package calls are modelled next to it, under the names zap gives
    them. *)

From Stdlib Require Import ZArith String Ascii List Bool Lia DecimalString.
From stdpp Require Import base list strings.
Import ListNotations.

Local Open Scope string_scope.
Local Open Scope list_scope.

(** ** Results of a Go call

    A call returns, panics with a value, or ends the process
    ([os.Exit]).  The world reached so far is kept in each case: what was
    written before a panic stays written. *)

Inductive Outcome (A : Type) : Type :=
  | Returned (a : A)
  | Panicked (v : string)
  | Exited (code : Z).

Arguments Returned {A} a.
Arguments Panicked {A} v.
Arguments Exited {A} code.

(** ** Severity: [zapcore.Level], an [int8] *)

Inductive Level : Type :=
  | DebugLevel | InfoLevel | WarnLevel | ErrorLevel
  | DPanicLevel | PanicLevel | FatalLevel.

Definition levelZ (l : Level) : Z :=
  match l with
  | DebugLevel => -1
  | InfoLevel => 0
  | WarnLevel => 1
  | ErrorLevel => 2
  | DPanicLevel => 3
  | PanicLevel => 4
  | FatalLevel => 5
  end.

(** [zapcore.Level.Enabled]: [lvl >= l]. *)
Definition Level_Enabled (l lvl : Level) : bool := (levelZ l <=? levelZ lvl)%Z.

(** [zapcore.CapitalLevelEncoder]. *)
Definition CapitalString (l : Level) : string :=
  match l with
  | DebugLevel => "DEBUG"
  | InfoLevel => "INFO"
  | WarnLevel => "WARN"
  | ErrorLevel => "ERROR"
  | DPanicLevel => "DPANIC"
  | PanicLevel => "PANIC"
  | FatalLevel => "FATAL"
  end.

(** ** Constants of log.go *)

Definition timeKey := "time".
Definition levelKey := "level".
Definition messageKey := "msg".
Definition defaultLevel := "info".
Definition defaultEncoding := "json".
Definition maxsize : Z := 20.
Definition maxcount : Z := 3.
Definition defaultInstanceID := "instance_1".

(** [fmt.Sprintf(logFilePathFormat, name)] with
    [logFilePathFormat = "/logs/%s.log"]: the verb [%s] on a string
    argument copies it. *)
Definition logFilePath (name : string) : string := "/logs/" +:+ name +:+ ".log".

(** ** Values carried by a record *)

(** Heap addresses: indices into the cell lists of the [World]. *)
Definition loc := nat.

(** An [io.Writer] handed in by the caller, named by a handle. *)
Definition Writer := nat.

Inductive Value : Type :=
  | VStr (s : string)
  | VInt (z : Z)
  | VBool (b : bool)
  | VTime (t : nat)      (* the entry's time stamp, ISO8601 *)
  | VStack.              (* a captured stack trace *)

(** A [zap.Field]: key and value.  A [keyvals ...interface{}] argument is
    taken in its well-formed shape, alternating string keys and values,
    as the list of its pairs. *)
Definition Field : Type := string * Value.

(** ** [config] *)

Record config : Type := mkConfig {
  encoding : string;
  logLevel : string;
  logPath : string;
  rotationSize : Z;
  rotationCount : Z;
  syslogConn : string;
  syslogProtocol : string;
  out : option Writer;        (* nil is [None] *)
  instanceID : string
}.

Definition set_encoding (v : string) (c : config) : config :=
  mkConfig v (logLevel c) (logPath c) (rotationSize c) (rotationCount c)
           (syslogConn c) (syslogProtocol c) (out c) (instanceID c).
Definition set_logLevel (v : string) (c : config) : config :=
  mkConfig (encoding c) v (logPath c) (rotationSize c) (rotationCount c)
           (syslogConn c) (syslogProtocol c) (out c) (instanceID c).
Definition set_logPath (v : string) (c : config) : config :=
  mkConfig (encoding c) (logLevel c) v (rotationSize c) (rotationCount c)
           (syslogConn c) (syslogProtocol c) (out c) (instanceID c).
Definition set_rotationSize (v : Z) (c : config) : config :=
  mkConfig (encoding c) (logLevel c) (logPath c) v (rotationCount c)
           (syslogConn c) (syslogProtocol c) (out c) (instanceID c).
Definition set_rotationCount (v : Z) (c : config) : config :=
  mkConfig (encoding c) (logLevel c) (logPath c) (rotationSize c) v
           (syslogConn c) (syslogProtocol c) (out c) (instanceID c).
Definition set_syslog (conn protocol : string) (c : config) : config :=
  mkConfig (encoding c) (logLevel c) (logPath c) (rotationSize c) (rotationCount c)
           conn protocol (out c) (instanceID c).
Definition set_out (v : option Writer) (c : config) : config :=
  mkConfig (encoding c) (logLevel c) (logPath c) (rotationSize c) (rotationCount c)
           (syslogConn c) (syslogProtocol c) v (instanceID c).
Definition set_instanceID (v : string) (c : config) : config :=
  mkConfig (encoding c) (logLevel c) (logPath c) (rotationSize c) (rotationCount c)
           (syslogConn c) (syslogProtocol c) (out c) v.

(** ** Options

    An [Option] is a function on a pointer to the logger.  The logger
    type and its fields are not exported, so the options a caller can
    build are the eight below.  Each one writes into [log.config] only; [applyOption] is the body of
    the closure it returns. *)

Inductive Option : Type :=
  | WithSyslog (conn protocol : string)
  | WithOutput (w : Writer)
  | WithLogLevel (level : string)
  | WithEncoding (ec : string)
  | WithLogFile (filePath : string)
  | WithRotationSize (size : Z)
  | WithRotationCount (count : Z)
  | WithInstanceID (instanceID : string).

Definition applyOption (opt : Option) (c : config) : config :=
  match opt with
  | WithSyslog conn protocol => set_syslog conn protocol c
  | WithOutput w => set_out (Some w) c
  | WithLogLevel level => set_logLevel level c
  | WithEncoding ec => set_encoding defaultEncoding c
  | WithLogFile filePath => set_logPath filePath c
  | WithRotationSize size => set_rotationSize size c
  | WithRotationCount count => set_rotationCount count c
  | WithInstanceID instanceID => set_instanceID instanceID c
  end.

(** [for _, opt := range opts { opt(l) }] *)
Definition applyOptions (opts : list Option) (c : config) : config :=
  fold_left (fun c opt => applyOption opt c) opts c.

(** ** The world: shared cells and the trace of writes *)

(** [lumberjack.Logger], the fields [getLogRotator] sets. *)
Record Rotator : Type := mkRotator {
  Filename : string;
  MaxSize : Z;
  MaxBackups : Z;
  LocalTime : bool;
  Compress : bool
}.

(** A [zapcore.WriteSyncer] target. *)
Inductive Sink : Type :=
  | StderrSink
  | SyslogSink (protocol conn tag : string)
  | WriterSink (w : Writer)
  | RotatorSink (r : loc).

(** What an encoder hands to the sinks: the members of a JSON object in
    the order they are written, or a console line (leading columns, then
    the fields). *)
Inductive Rendered : Type :=
  | JSONObject (members : list Field)
  | ConsoleLine (columns : list Value) (fields : list Field).

Record World : Type := mkWorld {
  levels : list Level;               (* the cells behind [zap.AtomicLevel] values *)
  rotators : list Rotator;           (* the [lumberjack.Logger] objects *)
  written : list (Sink * Rendered);  (* every write received by a sink, oldest first *)
  now : nat                          (* the clock *)
}.

(** [zap.NewAtomicLevelAt]: a fresh cell. *)
Definition NewAtomicLevelAt (l : Level) (w : World) : loc * World :=
  (length (levels w),
   mkWorld (levels w ++ [l]) (rotators w) (written w) (now w)).

(** [AtomicLevel.SetLevel]: a store through the pointer. *)
Definition SetLevel (a : loc) (l : Level) (w : World) : World :=
  mkWorld (<[a:=l]> (levels w)) (rotators w) (written w) (now w).

(** [AtomicLevel.Enabled]. *)
Definition AtomicLevel_Enabled (a : loc) (lvl : Level) (w : World) : bool :=
  match levels w !! a with
  | Some l => Level_Enabled l lvl
  | None => false
  end.

Definition newRotator (r : Rotator) (w : World) : loc * World :=
  (length (rotators w),
   mkWorld (levels w) (rotators w ++ [r]) (written w) (now w)).

(** ** The part of zap the package drives *)

Inductive LevelEncoder : Type := LowercaseLevelEncoder | CapitalLevelEncoder.
Inductive TimeEncoder : Type := EpochTimeEncoder | ISO8601TimeEncoder.

(** [zapcore.EncoderConfig].  The name and caller keys are left out: the
    logger has no name and [DisableCaller] is set, so neither is ever
    rendered. *)
Record zapcore_EncoderConfig : Type := mkEncoderConfig {
  MessageKey : string;
  LevelKey : string;
  TimeKey : string;
  StacktraceKey : string;
  EncodeLevel : LevelEncoder;
  EncodeTime : TimeEncoder
}.

(** [zap.Config], the fields read or written here. *)
Record zap_Config : Type := mkZapConfig {
  Level_ : loc;
  Encoding : string;
  DisableCaller : bool;
  EncoderConfig : zapcore_EncoderConfig
}.

(** [zap.NewProductionConfig]: it brings its own level cell, at info. *)
Definition NewProductionConfig (w : World) : zap_Config * World :=
  let '(lv, w) := NewAtomicLevelAt InfoLevel w in
  (mkZapConfig lv "json" false
     (mkEncoderConfig "msg" "level" "ts" "stacktrace"
                      LowercaseLevelEncoder EpochTimeEncoder),
   w).

Inductive Encoder : Type :=
  | NewJSONEncoder (cfg : zapcore_EncoderConfig)
  | NewConsoleEncoder (cfg : zapcore_EncoderConfig).

Definition LowercaseString (l : Level) : string :=
  match l with
  | DebugLevel => "debug"
  | InfoLevel => "info"
  | WarnLevel => "warn"
  | ErrorLevel => "error"
  | DPanicLevel => "dpanic"
  | PanicLevel => "panic"
  | FatalLevel => "fatal"
  end.

Definition encodeLevel (e : LevelEncoder) (l : Level) : Value :=
  match e with
  | LowercaseLevelEncoder => VStr (LowercaseString l)
  | CapitalLevelEncoder => VStr (CapitalString l)
  end.

(** [zapcore.Entry]. *)
Record Entry : Type := mkEntry {
  ent_Level : Level;
  ent_Time : nat;
  ent_Message : string;
  ent_Stack : bool       (* whether a stack trace was captured *)
}.

(** [Encoder.EncodeEntry]: level, time, message, the fields bound to the
    core, the fields of the call, the stack trace when there is one. *)
Definition EncodeEntry (enc : Encoder) (context : list Field)
    (ent : Entry) (fields : list Field) : Rendered :=
  match enc with
  | NewJSONEncoder cfg =>
      JSONObject
        ([(LevelKey cfg, encodeLevel (EncodeLevel cfg) (ent_Level ent));
          (TimeKey cfg, VTime (ent_Time ent));
          (MessageKey cfg, VStr (ent_Message ent))]
         ++ context ++ fields
         ++ (if ent_Stack ent then [(StacktraceKey cfg, VStack)] else []))
  | NewConsoleEncoder cfg =>
      ConsoleLine
        [VTime (ent_Time ent);
         encodeLevel (EncodeLevel cfg) (ent_Level ent);
         VStr (ent_Message ent)]
        (context ++ fields
         ++ (if ent_Stack ent then [(StacktraceKey cfg, VStack)] else []))
  end.

(** [zapcore.NewCore(enc, ws, level)]: an encoder (with the fields bound
    so far), the write syncer (the targets of
    [zapcore.NewMultiWriteSyncer]) and the level enabler, held by
    reference. *)
Record Core : Type := NewCoreWith {
  core_enc : Encoder;
  core_context : list Field;
  core_out : list Sink;
  core_level : loc
}.

Definition NewCore (enc : Encoder) (ws : list Sink) (level : loc) : Core :=
  NewCoreWith enc [] ws level.

(** [ioCore.With]: a clone with the fields added to the encoder. *)
Definition Core_With (c : Core) (fields : list Field) : Core :=
  NewCoreWith (core_enc c) (core_context c ++ fields) (core_out c) (core_level c).

Definition Core_Enabled (c : Core) (lvl : Level) (w : World) : bool :=
  AtomicLevel_Enabled (core_level c) lvl w.

(** [ioCore.Write]: encode once, hand the bytes to every target. *)
Definition Core_Write (c : Core) (ent : Entry) (fields : list Field) (w : World) : World :=
  let r := EncodeEntry (core_enc c) (core_context c) ent fields in
  mkWorld (levels w) (rotators w)
          (written w ++ map (fun s => (s, r)) (core_out c))
          (now w).

(** [zap.Logger] and its sugared wrapper: the core and the level from
    which stack traces are captured. *)
Record SugaredLogger : Type := mkSugared {
  core : Core;
  addStack : Level
}.

(** A [zap.Option]. *)
Definition zap_Option : Type := SugaredLogger -> SugaredLogger.

Definition WrapCore (f : Core -> Core) : zap_Option :=
  fun log => mkSugared (f (core log)) (addStack log).

Definition Fields (fs : list Field) : zap_Option :=
  fun log => mkSugared (Core_With (core log) fs) (addStack log).

(** [Config.Build] followed by [Sugar]: the encoder is looked up by name,
    the production core writes to stderr behind [cfg.Level] (and behind
    the production sampler, which sits in that core), stack traces start
    at error; then the options are applied in order. *)
Definition Config_Build (cfg : zap_Config) (opts : list zap_Option)
    : SugaredLogger + string :=
  let enc :=
    if String.eqb (Encoding cfg) "json" then Some (NewJSONEncoder (EncoderConfig cfg))
    else if String.eqb (Encoding cfg) "console" then Some (NewConsoleEncoder (EncoderConfig cfg))
    else None in
  match enc with
  | None => inr ("no encoder registered for name " +:+ Encoding cfg)
  | Some enc =>
      inl (fold_left (fun log o => o log) opts
             (mkSugared (NewCore enc [StderrSink] (Level_ cfg)) ErrorLevel))
  end.

(** [SugaredLogger.log] with [Logger.check] and [CheckedEntry.Write]
    inlined: below dpanic a disabled level returns at once; the core
    writes when it is enabled; panic and fatal act after the write,
    whether or not the core took the entry. *)
Definition SugaredLogger_log (s : SugaredLogger) (lvl : Level) (msg : string)
    (context : list Field) (w : World) : Outcome unit * World :=
  if (levelZ lvl <? levelZ DPanicLevel)%Z && negb (Core_Enabled (core s) lvl w)
  then (Returned tt, w)
  else
    let ent := mkEntry lvl (now w) msg (Level_Enabled (addStack s) lvl) in
    let w' := if Core_Enabled (core s) lvl w
              then Core_Write (core s) ent context w
              else w in
    match lvl with
    | PanicLevel => (Panicked msg, w')
    | FatalLevel => (Exited 1, w')
    | _ => (Returned tt, w')
    end.

Definition Debugw (s : SugaredLogger) msg keyvals := SugaredLogger_log s DebugLevel msg keyvals.
Definition Infow (s : SugaredLogger) msg keyvals := SugaredLogger_log s InfoLevel msg keyvals.
Definition Warnw (s : SugaredLogger) msg keyvals := SugaredLogger_log s WarnLevel msg keyvals.
Definition Errorw (s : SugaredLogger) msg keyvals := SugaredLogger_log s ErrorLevel msg keyvals.
Definition Panicw (s : SugaredLogger) msg keyvals := SugaredLogger_log s PanicLevel msg keyvals.
Definition Fatalw (s : SugaredLogger) msg keyvals := SugaredLogger_log s FatalLevel msg keyvals.

(** [SugaredLogger.With]. *)
Definition SugaredLogger_With (s : SugaredLogger) (keyvals : list Field) : SugaredLogger :=
  mkSugared (Core_With (core s) keyvals) (addStack s).

(** ** The package *)

(** What the package takes from Go's standard library and from the
    network: [strings.ToLower], [fmt.Sprintf] and [fmt.Sprint] on a
    format and its arguments, and the result of [syslog.Dial] (the error,
    if any) for a protocol, an address and a tag. *)
Class GoRuntime : Type := {
  strings_ToLower : string -> string;
  fmt_Sprintf : string -> list Value -> string;
  fmt_Sprint : list Value -> string;
  syslog_Dial : string -> string -> string -> option string
}.

(** [logger].  The three pointers are addresses; [rotator] may be nil.
    The configuration is written only while [NewLogger] applies the
    options, so the value stands for the pointer. *)
Record logger : Type := mkLogger {
  sugared : SugaredLogger;
  rotator : option loc;
  level : loc;
  lconfig : config
}.

Definition nilDereference : string :=
  "runtime error: invalid memory address or nil pointer dereference".

Definition unsupportedLevel (level : string) : string :=
  "unsupported log level " +:+ level
  +:+ ". debug, info, warn, error, panic and fatal are the only supported loglevels.".

Definition unsupportedLevelWarning : string :=
  "can't change to a unsupported log level. Only debug, info, warn, error, panic and fatal levels are supported.".

Section Package.

Context `{rt : GoRuntime}.

(** syslog.go: [GetSyslog].  The dial fixes the priority (debug severity,
    daemon facility), which plays no part below. *)
Definition GetSyslog (protocol conn tag : string) : Sink + string :=
  match syslog_Dial protocol conn tag with
  | Some err => inr err
  | None => inl (SyslogSink protocol conn tag)
  end.

(** [withWrapCore]: the encoder is chosen when the option is built, and
    the core the option receives is dropped. *)
Definition withWrapCore (ws : list Sink) (conf : zap_Config) (level : loc)
    : Outcome zap_Option :=
  if String.eqb (Encoding conf) "json" then
    Returned (WrapCore (fun _ => NewCore (NewJSONEncoder (EncoderConfig conf)) ws level))
  else if String.eqb (Encoding conf) "console" then
    Returned (WrapCore (fun _ => NewCore (NewConsoleEncoder (EncoderConfig conf)) ws level))
  else Panicked "unknown encoding".

Definition getLogRotator (conf : config) (w : World) : loc * World :=
  newRotator (mkRotator (logPath conf) (rotationSize conf) (rotationCount conf) true false) w.

Definition getZapLogLevel (level : string) : Outcome Level :=
  if String.eqb level "debug" then Returned DebugLevel
  else if String.eqb level "info" then Returned InfoLevel
  else if String.eqb level "warn" then Returned WarnLevel
  else if String.eqb level "error" then Returned ErrorLevel
  else if String.eqb level "panic" then Returned PanicLevel
  else if String.eqb level "fatal" then Returned FatalLevel
  else Panicked (unsupportedLevel level).

(** The configuration [NewLogger] starts from. *)
Definition initialConfig (app : string) : config :=
  {| logLevel := defaultLevel;
     logPath := logFilePath (strings_ToLower app);
     rotationSize := maxsize;
     rotationCount := maxcount;
     encoding := defaultEncoding;
     instanceID := defaultInstanceID;
     syslogConn := "";
     syslogProtocol := "";
     out := None |}.

(** The encoder settings [NewLogger] writes into the production
    configuration. *)
Definition configure (cfg : zap_Config) (encoding : string) : zap_Config :=
  mkZapConfig (Level_ cfg) encoding true
    (mkEncoderConfig messageKey levelKey timeKey
       (StacktraceKey (EncoderConfig cfg))
       CapitalLevelEncoder ISO8601TimeEncoder).

(** [NewLogger].  [Returned (inl l)] is [(l, nil)], [Returned (inr err)]
    is [(nil, err)].  The deferred [Sync] writes nothing and is left
    out. *)
Definition NewLogger (app version : string) (opts : list Option) (w : World)
    : Outcome (logger + string) * World :=
  let c := applyOptions opts (initialConfig app) in
  match getZapLogLevel (logLevel c) with
  | Panicked v => (Panicked v, w)
  | Exited n => (Exited n, w)
  | Returned zapLogLevel =>
      let '(level, w) := NewAtomicLevelAt zapLogLevel w in
      let '(cfg, w) := NewProductionConfig w in
      let cfg := configure cfg (encoding c) in
      let dialled :=
        if String.eqb (syslogConn c) "" then inl []
        else match GetSyslog (syslogProtocol c) (syslogConn c)
                             (app +:+ "-" +:+ version) with
             | inr err => inr err
             | inl Syslog => inl [Syslog]
             end in
      match dialled with
      | inr err => (Returned (inr err), w)
      | inl targets =>
          let targets :=
            match out c with
            | Some o => targets ++ [WriterSink o]
            | None => targets
            end in
          let '(lr, targets, w) :=
            if String.eqb (encoding c) defaultEncoding
            then let '(r, w) := getLogRotator c w in
                 (Some r, targets ++ [RotatorSink r], w)
            else (None, targets, w) in
          match withWrapCore targets cfg level with
          | Panicked v => (Panicked v, w)
          | Exited n => (Exited n, w)
          | Returned wrap =>
              match Config_Build cfg
                      [wrap;
                       Fields [("service", VStr app);
                               ("version", VStr version);
                               ("instance_id", VStr (instanceID c))]] with
              | inr err => (Returned (inr err), w)
              | inl sl => (Returned (inl (mkLogger sl lr level c)), w)
              end
          end
      end
  end.

(** *** The facade *)

Definition Debug (l : logger) (msg : string) (keyvals : list Field) :=
  Debugw (sugared l) msg keyvals.
Definition Info (l : logger) (msg : string) (keyvals : list Field) :=
  Infow (sugared l) msg keyvals.
Definition Warn (l : logger) (msg : string) (keyvals : list Field) :=
  Warnw (sugared l) msg keyvals.
Definition Error (l : logger) (msg : string) (keyvals : list Field) :=
  Errorw (sugared l) msg keyvals.
Definition Panic (l : logger) (msg : string) (keyvals : list Field) :=
  Panicw (sugared l) msg keyvals.
Definition Fatal (l : logger) (msg : string) (keyvals : list Field) :=
  Fatalw (sugared l) msg keyvals.

(** zap's [getMessage]. *)
Definition getMessage (template : string) (fmtArgs : list Value) : string :=
  match fmtArgs with
  | [] => template
  | _ =>
      if negb (String.eqb template "") then fmt_Sprintf template fmtArgs
      else match fmtArgs with
           | [VStr str] => str
           | _ => fmt_Sprint fmtArgs
           end
  end.

Definition Debugf (l : logger) (format : string) (args : list Value) :=
  SugaredLogger_log (sugared l) DebugLevel (getMessage format args) [].

Definition Printf (l : logger) (format : string) (args : list Value) :=
  SugaredLogger_log (sugared l) InfoLevel (getMessage format args) [].

(** [With]: the second field of the literal, the rotator, is nil. *)
Definition With (l : logger) (keyvals : list Field) : logger :=
  mkLogger (SugaredLogger_With (sugared l) keyvals) None (level l) (lconfig l).

Definition SetLogLevel (l : logger) (level_ : string) (w : World) : Outcome unit * World :=
  if String.eqb level_ "debug" then (Returned tt, SetLevel (level l) DebugLevel w)
  else if String.eqb level_ "info" then (Returned tt, SetLevel (level l) InfoLevel w)
  else if String.eqb level_ "warn" then (Returned tt, SetLevel (level l) WarnLevel w)
  else if String.eqb level_ "error" then (Returned tt, SetLevel (level l) ErrorLevel w)
  else if String.eqb level_ "panic" then (Returned tt, SetLevel (level l) PanicLevel w)
  else if String.eqb level_ "fatal" then (Returned tt, SetLevel (level l) FatalLevel w)
  else Warn l unsupportedLevelWarning [] w.

(** A store through [l.rotator]; through nil it is a run-time panic. *)
Definition storeRotator (l : logger) (f : Rotator -> Rotator) (w : World)
    : Outcome unit * World :=
  match rotator l with
  | None => (Panicked nilDereference, w)
  | Some r =>
      (Returned tt,
       mkWorld (levels w) (alter f r (rotators w)) (written w) (now w))
  end.

Definition SetLogRotationSize (l : logger) (size : Z) : World -> Outcome unit * World :=
  storeRotator l (fun r => mkRotator (Filename r) size (MaxBackups r) (LocalTime r) (Compress r)).

Definition SetLogRotationCount (l : logger) (count : Z) : World -> Outcome unit * World :=
  storeRotator l (fun r => mkRotator (Filename r) (MaxSize r) count (LocalTime r) (Compress r)).

End Package.

(** A runtime to evaluate the package on concrete inputs: ASCII
    lower-casing (what [strings.ToLower] does on ASCII input), a
    network where every dial succeeds, and [fmt.Sprintf] and [fmt.Sprint]
    on strings, integers and booleans for the verbs [%s], [%d], [%v],
    [%t] and [%%], with what Go prints for a missing operand, an operand
    of the wrong type and operands left over. *)
Definition asciiLower (c : ascii) : ascii :=
  let n := nat_of_ascii c in
  if (65 <=? n)%nat && (n <=? 90)%nat then ascii_of_nat (n + 32) else c.

Fixpoint mapString (f : ascii -> ascii) (s : string) : string :=
  match s with
  | EmptyString => EmptyString
  | String c s => String (f c) (mapString f s)
  end.

Definition decimal (z : Z) : string := NilZero.string_of_int (Z.to_int z).

(** The operand as [%v] prints it. *)
Definition showValue (v : Value) : string :=
  match v with
  | VStr s => s
  | VInt z => decimal z
  | VBool true => "true"
  | VBool false => "false"
  | VTime t => decimal (Z.of_nat t)
  | VStack => ""
  end.

Definition typeName (v : Value) : string :=
  match v with
  | VStr _ => "string"
  | VInt _ => "int"
  | VBool _ => "bool"
  | VTime _ => "time.Time"
  | VStack => "string"
  end.

(** One verb on one operand; a verb that does not fit the operand prints
    as [%!verb(type=value)]. *)
Definition formatVerb (verb : ascii) (v : Value) : string :=
  let bad := "%!" +:+ String verb ("(" +:+ typeName v +:+ "=" +:+ showValue v +:+ ")") in
  if Ascii.eqb verb "v" then showValue v
  else if Ascii.eqb verb "s" then match v with VStr s => s | _ => bad end
  else if Ascii.eqb verb "d" then match v with VInt z => decimal z | _ => bad end
  else if Ascii.eqb verb "t" then match v with VBool _ => showValue v | _ => bad end
  else bad.

Fixpoint extraOperands (args : list Value) : string :=
  match args with
  | [] => ""
  | [v] => typeName v +:+ "=" +:+ showValue v
  | v :: rest => typeName v +:+ "=" +:+ showValue v +:+ ", " +:+ extraOperands rest
  end.

Fixpoint sprintf (format : string) (args : list Value) : string :=
  match format with
  | EmptyString =>
      match args with
      | [] => ""
      | _ => "%!(EXTRA " +:+ extraOperands args +:+ ")"
      end
  | String c rest =>
      if Ascii.eqb c "%" then
        match rest with
        | EmptyString => "%!(NOVERB)" +:+ sprintf rest args
        | String verb rest' =>
            if Ascii.eqb verb "%" then String "%" (sprintf rest' args)
            else match args with
                 | [] => "%!" +:+ String verb ("(MISSING)" +:+ sprintf rest' [])
                 | v :: args' => formatVerb verb v +:+ sprintf rest' args'
                 end
        end
      else String c (sprintf rest args)
  end.

(** [fmt.Sprint]: the operands in their default format, a space between
    two operands when neither is a string. *)
Fixpoint sprint (args : list Value) : string :=
  match args with
  | [] => ""
  | [v] => showValue v
  | v :: ((v' :: _) as rest) =>
      match v, v' with
      | VStr _, _ | _, VStr _ => showValue v +:+ sprint rest
      | _, _ => showValue v +:+ " " +:+ sprint rest
      end
  end.

Definition localRuntime : GoRuntime := {|
  strings_ToLower := mapString asciiLower;
  fmt_Sprintf := sprintf;
  fmt_Sprint := sprint;
  syslog_Dial := fun _ _ _ => None
|}.

(** A network where no dial succeeds. *)
Definition offlineRuntime : GoRuntime := {|
  strings_ToLower := mapString asciiLower;
  fmt_Sprintf := sprintf;
  fmt_Sprint := sprint;
  syslog_Dial := fun _ _ _ => Some "dial failed"
|}.

Definition emptyWorld : World := mkWorld [] [] [] 0.

(** ** Vocabulary of the properties *)

(** The six severities the facade offers, and the method of each. *)
Inductive Severity : Type :=
  | SevDebug | SevInfo | SevWarn | SevError | SevPanic | SevFatal.

Definition severityLevel (s : Severity) : Level :=
  match s with
  | SevDebug => DebugLevel
  | SevInfo => InfoLevel
  | SevWarn => WarnLevel
  | SevError => ErrorLevel
  | SevPanic => PanicLevel
  | SevFatal => FatalLevel
  end.

(** The name of a severity as [SetLogLevel] and [WithLogLevel] take it. *)
Definition severityName (s : Severity) : string :=
  LowercaseString (severityLevel s).

Definition logCall (s : Severity) (l : logger) (msg : string) (keyvals : list Field)
    : World -> Outcome unit * World :=
  match s with
  | SevDebug => Debug l msg keyvals
  | SevInfo => Info l msg keyvals
  | SevWarn => Warn l msg keyvals
  | SevError => Error l msg keyvals
  | SevPanic => Panic l msg keyvals
  | SevFatal => Fatal l msg keyvals
  end.

(** Membership in debug, info, warn, error, panic, fatal. *)
Definition supportedLevel (name : string) : bool :=
  existsb (String.eqb name) ["debug"; "info"; "warn"; "error"; "panic"; "fatal"].

(** The threshold a logger holds: the content of its level cell. *)
Definition threshold (l : logger) (w : World) : option Level :=
  levels w !! level l.

(** The sinks a logger writes to. *)
Definition sinks (l : logger) : list Sink := core_out (core (sugared l)).

(** The record a logger renders for an entry made at clock [t]. *)
Definition render (l : logger) (lvl : Level) (t : nat) (msg : string)
    (keyvals : list Field) : Rendered :=
  EncodeEntry (core_enc (core (sugared l))) (core_context (core (sugared l)))
              (mkEntry lvl t msg (Level_Enabled (addStack (sugared l)) lvl))
              keyvals.

(** The writes made between two worlds. *)
Definition newWrites (w w' : World) : list (Sink * Rendered) :=
  drop (length (written w)) (written w').

(** A record carries a field. *)
Definition hasField (f : Field) (r : Rendered) : Prop :=
  match r with
  | JSONObject members => In f members
  | ConsoleLine _ fields => In f fields
  end.

(** The first value a JSON object gives for a key. *)
Fixpoint member (key : string) (members : list Field) : option Value :=
  match members with
  | [] => None
  | (k, v) :: rest => if String.eqb k key then Some v else member key rest
  end.

(** Loggers derived from a root by [With], any number of times. *)
Inductive derived (root : logger) : logger -> Prop :=
  | derived_root : derived root root
  | derived_With (l : logger) (keyvals : list Field) :
      derived root l -> derived root (With l keyvals).

(** Loggers the package hands out: built by [NewLogger], then derived. *)
Definition built `{rt : GoRuntime} (l : logger) : Prop :=
  exists app version opts w root w',
    NewLogger app version opts w = (Returned (inl root), w') /\ derived root l.

(** The encoder every built logger turns out to carry. *)
Definition packageEncoder : Encoder :=
  NewJSONEncoder
    (mkEncoderConfig messageKey levelKey timeKey "stacktrace"
                     CapitalLevelEncoder ISO8601TimeEncoder).

(** What holds of a built logger whatever was done to it: its core reads
    the level cell the logger itself holds, it encodes JSON with capital
    level names, and stack traces start at error. *)
Record wellFormed (l : logger) : Prop := mkWellFormed {
  wf_gate : core_level (core (sugared l)) = level l;
  wf_encoder : core_enc (core (sugared l)) = packageEncoder;
  wf_stack : addStack (sugared l) = ErrorLevel
}.

Definition isInstanceID (o : Option) : bool :=
  match o with
  | WithInstanceID _ => true
  | _ => false
  end.

Definition isLogLevel (o : Option) : bool :=
  match o with
  | WithLogLevel _ => true
  | _ => false
  end.

(** The targets [NewLogger] collects before the rotator. *)
Definition firstTargets `{rt : GoRuntime} (app version : string) (c : config) : list Sink + string :=
  match (if String.eqb (syslogConn c) "" then inl []
         else match GetSyslog (syslogProtocol c) (syslogConn c)
                              (app +:+ "-" +:+ version) with
              | inr err => inr err
              | inl Syslog => inl [Syslog]
              end) with
  | inr err => inr err
  | inl targets =>
      inl (match out c with
           | Some o => targets ++ [WriterSink o]
           | None => targets
           end)
  end.

(** ** Sample loggers

    The logger of the package's tests, [NewLogger("MyService", "1.0.0",
    WithOutput(buf))] started in the empty world, with the world it
    leaves; and the same with [WithLogLevel("error")]. *)

Definition sampleConfig (lvl id : string) : config :=
  mkConfig "json" lvl "/logs/myservice.log" 20 3 "" "" (Some 7) id.

Definition sampleLoggerOf (lvl id : string) : logger :=
  mkLogger
    (mkSugared
       (NewCoreWith packageEncoder
          [("service", VStr "MyService"); ("version", VStr "1.0.0");
           ("instance_id", VStr id)]
          [WriterSink 7; RotatorSink 0] 0)
       ErrorLevel)
    (Some 0) 0 (sampleConfig lvl id).

Definition sampleWorldAt (lv : Level) : World :=
  mkWorld [lv; InfoLevel] [mkRotator "/logs/myservice.log" 20 3 true false] [] 0.

Definition sampleLogger : logger := sampleLoggerOf "info" "instance_1".
Definition sampleWorld : World := sampleWorldAt InfoLevel.
Definition quietLogger : logger := sampleLoggerOf "error" "instance_1".
Definition quietWorld : World := sampleWorldAt ErrorLevel.
Definition namedLogger : logger := sampleLoggerOf "info" "my_instance".

(** The JSON object the sample logger writes for a message. *)
Definition sampleObject (lvl msg id : string) (fields : list Field) : Rendered :=
  JSONObject
    ([("level", VStr lvl); ("time", VTime 0); ("msg", VStr msg);
      ("service", VStr "MyService"); ("version", VStr "1.0.0");
      ("instance_id", VStr id)] ++ fields).

(** ** Vocabulary of the further properties *)

(** Which of the eight constructors built an option. *)
Definition optionKind (o : Option) : nat :=
  match o with
  | WithSyslog _ _ => 0
  | WithOutput _ => 1
  | WithLogLevel _ => 2
  | WithEncoding _ => 3
  | WithLogFile _ => 4
  | WithRotationSize _ => 5
  | WithRotationCount _ => 6
  | WithInstanceID _ => 7
  end.

(** No option of the kind of [o] in a list. *)
Definition noneOfKind (o : Option) (opts : list Option) : bool :=
  forallb (fun x => negb (Nat.eqb (optionKind x) (optionKind o))) opts.

(** The configuration holds what the option stores. *)
Definition optionHolds (o : Option) (c : config) : Prop :=
  match o with
  | WithSyslog conn protocol => syslogConn c = conn /\ syslogProtocol c = protocol
  | WithOutput w => out c = Some w
  | WithLogLevel lv => logLevel c = lv
  | WithEncoding _ => encoding c = defaultEncoding
  | WithLogFile p => logPath c = p
  | WithRotationSize n => rotationSize c = n
  | WithRotationCount n => rotationCount c = n
  | WithInstanceID id => instanceID c = id
  end.



(** The members every record of a built logger starts with, and the
    stack trace member that ends it from error upward. *)
Definition headMembers (lvl : Level) (t : nat) (msg app version id : string)
    : list Field :=
  [("level", VStr (CapitalString lvl)); ("time", VTime t); ("msg", VStr msg);
   ("service", VStr app); ("version", VStr version); ("instance_id", VStr id)].

Definition stackMembers (lvl : Level) : list Field :=
  if (levelZ ErrorLevel <=? levelZ lvl)%Z then [("stacktrace", VStack)] else [].

(** The second world differs from the first by appended writes only. *)
Definition onlyAppends (w w' : World) : Prop :=
  levels w' = levels w /\ rotators w' = rotators w /\ now w' = now w
  /\ exists more, written w' = written w ++ more.

(** * Properties *)

Section Properties.

Context `{rt : GoRuntime}.

(** ** Options and construction *)

Lemma applyOption_encoding (o : Option) (c : config) :
  encoding c = defaultEncoding -> encoding (applyOption o c) = defaultEncoding.
Proof. destruct o; simpl; auto. Qed.

Lemma applyOptions_encoding (opts : list Option) :
  forall c, encoding c = defaultEncoding ->
            encoding (applyOptions opts c) = defaultEncoding.
Proof.
  induction opts as [|o opts IH]; intros c Hc; simpl; [exact Hc|].
  apply IH, applyOption_encoding, Hc.
Qed.

Lemma encoding_after_options (app : string) (opts : list Option) :
  encoding (applyOptions opts (initialConfig app)) = "json".
Proof. apply applyOptions_encoding. reflexivity. Qed.

Lemma applyOptions_app (xs ys : list Option) (c : config) :
  applyOptions (xs ++ ys) c = applyOptions ys (applyOptions xs c).
Proof. unfold applyOptions. apply fold_left_app. Qed.

(** Options other than [WithInstanceID] leave the instance ID alone. *)
Lemma applyOptions_keep_instanceID (opts : list Option) :
  forall c, forallb (fun o => negb (isInstanceID o)) opts = true ->
            instanceID (applyOptions opts c) = instanceID c.
Proof.
  induction opts as [|o opts IH]; intros c Hall; simpl in *; [reflexivity|].
  apply andb_prop in Hall as [Ho Hall].
  rewrite IH by exact Hall.
  destruct o; simpl in *; try reflexivity; discriminate.
Qed.

(** Options other than [WithLogLevel] leave the level name alone. *)
Lemma applyOptions_keep_logLevel (opts : list Option) :
  forall c, forallb (fun o => negb (isLogLevel o)) opts = true ->
            logLevel (applyOptions opts c) = logLevel c.
Proof.
  induction opts as [|o opts IH]; intros c Hall; simpl in *; [reflexivity|].
  apply andb_prop in Hall as [Ho Hall].
  rewrite IH by exact Hall.
  destruct o; simpl in *; try reflexivity; discriminate.
Qed.

Lemma logLevel_last (app : string) (pre post : list Option) (lv : string) :
  forallb (fun o => negb (isLogLevel o)) post = true ->
  logLevel (applyOptions (pre ++ WithLogLevel lv :: post) (initialConfig app)) = lv.
Proof.
  intros Hpost. rewrite applyOptions_app. simpl.
  rewrite applyOptions_keep_logLevel by exact Hpost. reflexivity.
Qed.

Lemma getZapLogLevel_supported (name : string) :
  supportedLevel name = false -> getZapLogLevel name = Panicked (unsupportedLevel name).
Proof.
  unfold supportedLevel, getZapLogLevel. simpl.
  repeat (destruct (String.eqb name _); [discriminate|]).
  reflexivity.
Qed.

Lemma getZapLogLevel_outcome (name : string) :
  (exists s, getZapLogLevel name = Returned (severityLevel s))
  \/ getZapLogLevel name = Panicked (unsupportedLevel name).
Proof.
  unfold getZapLogLevel.
  destruct (String.eqb name "debug"); [left; exists SevDebug; reflexivity|].
  destruct (String.eqb name "info"); [left; exists SevInfo; reflexivity|].
  destruct (String.eqb name "warn"); [left; exists SevWarn; reflexivity|].
  destruct (String.eqb name "error"); [left; exists SevError; reflexivity|].
  destruct (String.eqb name "panic"); [left; exists SevPanic; reflexivity|].
  destruct (String.eqb name "fatal"); [left; exists SevFatal; reflexivity|].
  right; reflexivity.
Qed.

(** [NewLogger] in closed form: it panics on the level name, or allocates
    the two level cells and then either returns the dial error or
    allocates the rotator and returns the logger. *)
Lemma NewLogger_eq (app version : string) (opts : list Option) (w : World) :
  let c := applyOptions opts (initialConfig app) in
  NewLogger app version opts w =
  match getZapLogLevel (logLevel c) with
  | Panicked v => (Panicked v, w)
  | Exited n => (Exited n, w)
  | Returned lv =>
      match firstTargets app version c with
      | inr err =>
          (Returned (inr err),
           mkWorld ((levels w ++ [lv]) ++ [InfoLevel]) (rotators w) (written w) (now w))
      | inl targets =>
          (Returned (inl
             (mkLogger
                (mkSugared
                   (NewCoreWith packageEncoder
                      [("service", VStr app); ("version", VStr version);
                       ("instance_id", VStr (instanceID c))]
                      (targets ++ [RotatorSink (length (rotators w))])
                      (length (levels w)))
                   ErrorLevel)
                (Some (length (rotators w))) (length (levels w)) c)),
           mkWorld ((levels w ++ [lv]) ++ [InfoLevel])
                   (rotators w ++ [mkRotator (logPath c) (rotationSize c)
                                             (rotationCount c) true false])
                   (written w) (now w))
      end
  end.
Proof.
  intros c. unfold NewLogger, firstTargets. fold c.
  pose proof (encoding_after_options app opts) as Henc. fold c in Henc.
  destruct (getZapLogLevel (logLevel c)) as [lv|v|n]; try reflexivity.
  cbn [NewAtomicLevelAt NewProductionConfig levels rotators written now].
  destruct (String.eqb (syslogConn c) "").
  - destruct (out c); rewrite Henc; reflexivity.
  - destruct (GetSyslog _ _ _); [|reflexivity].
    destruct (out c); rewrite Henc; reflexivity.
Qed.

(** *** What [NewLogger] returns *)

(** The cell [NewLogger] allocates first, seen after the second. *)
Lemma lookup_first_cell (cells : list Level) (a b : Level) :
  ((cells ++ [a]) ++ [b]) !! length cells = Some a.
Proof. rewrite <- app_assoc. apply list_lookup_middle. reflexivity. Qed.

Lemma NewLogger_wellFormed (app version : string) (opts : list Option)
    (w w' : World) (l : logger) :
  NewLogger app version opts w = (Returned (inl l), w') -> wellFormed l.
Proof.
  rewrite NewLogger_eq.
  destruct (getZapLogLevel _); try discriminate.
  destruct (firstTargets _ _ _); try discriminate.
  intros [= <- _]. split; reflexivity.
Qed.

Lemma With_wellFormed (l : logger) (keyvals : list Field) :
  wellFormed l -> wellFormed (With l keyvals).
Proof. intros [Hg He Hs]. split; simpl; assumption. Qed.

Lemma derived_wellFormed (root l : logger) :
  derived root l -> wellFormed root -> wellFormed l.
Proof. induction 1; intros Hr; [exact Hr|]. apply With_wellFormed; auto. Qed.

Lemma built_wellFormed (l : logger) : built l -> wellFormed l.
Proof.
  intros (app & version & opts & w & root & w' & Hnew & Hd).
  eapply derived_wellFormed; [exact Hd|].
  eapply NewLogger_wellFormed; exact Hnew.
Qed.

(** Derivation keeps the level cell, the sinks and the bound fields. *)
Lemma derived_shares (root l : logger) :
  derived root l ->
  level l = level root /\ sinks l = sinks root /\ lconfig l = lconfig root
  /\ exists more, core_context (core (sugared l))
                  = core_context (core (sugared root)) ++ more.
Proof.
  induction 1 as [|l keyvals Hd (Hl & Hs & Hc & more & Hm)].
  - repeat split. exists []. symmetry. apply app_nil_r.
  - repeat split; try assumption. exists (more ++ keyvals).
    simpl. rewrite Hm. symmetry. apply app_assoc.
Qed.

(** C6: with no options [NewLogger] returns a logger, and its
    configuration has level info, rotation size 20, rotation count 3,
    encoding json and log path "/logs/" + lower-cased service name +
    ".log"; the level cell and the rotator it creates hold these
    values. *)
Theorem NewLogger_defaults (app version : string) (w : World) :
  exists l w',
    NewLogger app version [] w = (Returned (inl l), w')
    /\ logLevel (lconfig l) = "info"
    /\ rotationSize (lconfig l) = 20%Z
    /\ rotationCount (lconfig l) = 3%Z
    /\ encoding (lconfig l) = "json"
    /\ logPath (lconfig l) = "/logs/" +:+ strings_ToLower app +:+ ".log"
    /\ threshold l w' = Some InfoLevel
    /\ (exists r, rotator l = Some r
                  /\ rotators w' !! r
                     = Some (mkRotator ("/logs/" +:+ strings_ToLower app +:+ ".log")
                                       20 3 true false)).
Proof.
  eexists. eexists. split; [reflexivity|].
  repeat (split; [reflexivity|]).
  split.
  - unfold threshold. simpl. apply lookup_first_cell.
  - eexists. split; [reflexivity|]. simpl.
    apply list_lookup_middle. reflexivity.
Qed.

(** [NewLogger] panics on the level name in force after the options,
    before it allocates anything. *)
Lemma NewLogger_panics_on_level (app version : string) (opts : list Option)
    (w : World) :
  supportedLevel (logLevel (applyOptions opts (initialConfig app))) = false ->
  NewLogger app version opts w
  = (Panicked (unsupportedLevel (logLevel (applyOptions opts (initialConfig app)))), w).
Proof.
  intros Hbad. rewrite NewLogger_eq.
  rewrite (getZapLogLevel_supported _ Hbad). reflexivity.
Qed.

(** C8: when the options supply a level name (the last [WithLogLevel]
    counts) that is not one of debug, info, warn, error, panic, fatal,
    [NewLogger] panics with the unsupported-level message naming it; it
    returns no logger, substitutes no level, and leaves the world as it
    found it. *)
Theorem NewLogger_unsupported_level (app version : string)
    (pre post : list Option) (lv : string) (w : World) :
  forallb (fun o => negb (isLogLevel o)) post = true ->
  supportedLevel lv = false ->
  NewLogger app version (pre ++ WithLogLevel lv :: post) w
  = (Panicked (unsupportedLevel lv), w).
Proof.
  intros Hpost Hbad.
  rewrite NewLogger_panics_on_level; rewrite (logLevel_last _ _ _ _ Hpost); auto.
Qed.

Lemma unsupportedLevel_not_encoding (name : string) :
  unsupportedLevel name <> "unknown encoding".
Proof. unfold unsupportedLevel. simpl. discriminate. Qed.

(** C10: whatever the options, the encoding handed to zap is "json"; a
    logger that [NewLogger] returns has encoding json in its
    configuration, a JSON encoder in its core and its rotator among its
    sinks; a panic of [NewLogger] is the unsupported-level one, never
    "unknown encoding"; the process is never ended. *)
Theorem NewLogger_always_json (app version : string) (opts : list Option) (w : World) :
  encoding (applyOptions opts (initialConfig app)) = "json"
  /\ match NewLogger app version opts w with
     | (Returned (inl l), w') =>
         encoding (lconfig l) = "json"
         /\ core_enc (core (sugared l)) = packageEncoder
         /\ exists r, rotator l = Some r
                      /\ In (RotatorSink r) (sinks l)
                      /\ is_Some (rotators w' !! r)
     | (Returned (inr _), _) => True
     | (Panicked v, _) =>
         v = unsupportedLevel (logLevel (applyOptions opts (initialConfig app)))
         /\ v <> "unknown encoding"
     | (Exited _, _) => False
     end.
Proof.
  split; [apply encoding_after_options|].
  rewrite NewLogger_eq.
  destruct (getZapLogLevel_outcome (logLevel (applyOptions opts (initialConfig app))))
    as [[s Hs]|Hp]; rewrite ?Hs, ?Hp.
  - destruct (firstTargets _ _ _) as [targets|err]; [|exact I].
    split; [apply encoding_after_options|].
    split; [reflexivity|].
    eexists. split; [reflexivity|]. split.
    + unfold sinks. simpl. apply in_or_app. right. left. reflexivity.
    + simpl. eexists. apply list_lookup_middle. reflexivity.
  - split; [reflexivity|]. apply unsupportedLevel_not_encoding.
Qed.

(** C1 (what the code does): [WithEncoding] stores the default encoding
    whatever name it is given, so a logger asked for "console" is built,
    and is built with encoding json and a JSON encoder. *)
Theorem WithEncoding_ignores_name (app version ec : string) (w : World) :
  applyOption (WithEncoding ec) (initialConfig app) = initialConfig app
  /\ exists l w',
       NewLogger app version [WithEncoding "console"] w = (Returned (inl l), w')
       /\ encoding (lconfig l) = "json"
       /\ core_enc (core (sugared l)) = packageEncoder.
Proof.
  split; [reflexivity|].
  eexists. eexists. split; [reflexivity|]. split; reflexivity.
Qed.

(** ** One log call *)

Lemma log_world (s : SugaredLogger) (lvl : Level) (msg : string)
    (keyvals : list Field) (w : World) :
  snd (SugaredLogger_log s lvl msg keyvals w)
  = if Core_Enabled (core s) lvl w
    then Core_Write (core s)
           (mkEntry lvl (now w) msg (Level_Enabled (addStack s) lvl)) keyvals w
    else w.
Proof.
  unfold SugaredLogger_log.
  destruct (Core_Enabled (core s) lvl w); destruct lvl; reflexivity.
Qed.

Lemma log_outcome (s : SugaredLogger) (lvl : Level) (msg : string)
    (keyvals : list Field) (w : World) :
  fst (SugaredLogger_log s lvl msg keyvals w)
  = match lvl with
    | PanicLevel => Panicked msg
    | FatalLevel => Exited 1
    | _ => Returned tt
    end.
Proof.
  unfold SugaredLogger_log.
  destruct (Core_Enabled (core s) lvl w); destruct lvl; reflexivity.
Qed.

Lemma logCall_eq (s : Severity) (l : logger) (msg : string) (keyvals : list Field) :
  logCall s l msg keyvals = SugaredLogger_log (sugared l) (severityLevel s) msg keyvals.
Proof. destruct s; reflexivity. Qed.

(** The writes of a call: none, or the rendered record once per sink. *)
Lemma log_written (l : logger) (lvl : Level) (msg : string)
    (keyvals : list Field) (w : World) :
  written (snd (SugaredLogger_log (sugared l) lvl msg keyvals w))
  = written w
    ++ (if Core_Enabled (core (sugared l)) lvl w
        then map (fun k => (k, render l lvl (now w) msg keyvals)) (sinks l)
        else []).
Proof.
  rewrite log_world.
  destruct (Core_Enabled _ _ _); [reflexivity|]. symmetry. apply app_nil_r.
Qed.

Lemma log_cells (l : logger) (lvl : Level) (msg : string)
    (keyvals : list Field) (w : World) :
  levels (snd (SugaredLogger_log (sugared l) lvl msg keyvals w)) = levels w
  /\ rotators (snd (SugaredLogger_log (sugared l) lvl msg keyvals w)) = rotators w.
Proof. rewrite log_world. destruct (Core_Enabled _ _ _); split; reflexivity. Qed.

Lemma enabled_threshold (l : logger) (lvl T : Level) (w : World) :
  wellFormed l -> threshold l w = Some T ->
  Core_Enabled (core (sugared l)) lvl w = (levelZ T <=? levelZ lvl)%Z.
Proof.
  intros Hwf HT. unfold Core_Enabled, AtomicLevel_Enabled.
  rewrite (wf_gate _ Hwf). unfold threshold in HT. rewrite HT. reflexivity.
Qed.

Lemma built_sinks (l : logger) : built l -> exists k, In k (sinks l).
Proof.
  intros (app & version & opts & w & root & w' & Hnew & Hd).
  destruct (derived_shares _ _ Hd) as (_ & Hs & _). rewrite Hs.
  rewrite NewLogger_eq in Hnew.
  destruct (getZapLogLevel _); try discriminate.
  destruct (firstTargets _ _ _) as [targets|]; try discriminate.
  injection Hnew as <- _. eexists. unfold sinks. simpl.
  apply in_or_app. right. left. reflexivity.
Qed.

(** C4: a call at severity [s] through a built logger whose threshold is
    [T] appends the rendered record once for every sink of the logger
    when [T <= s], and appends nothing when [s < T]; so the record reaches
    every sink if and only if [T <= s]. *)
Theorem logCall_admission (s : Severity) (l : logger) (msg : string)
    (keyvals : list Field) (w : World) (T : Level) :
  built l ->
  threshold l w = Some T ->
  let w' := snd (logCall s l msg keyvals w) in
  let r := render l (severityLevel s) (now w) msg keyvals in
  written w'
  = written w
    ++ (if (levelZ T <=? levelZ (severityLevel s))%Z
        then map (fun k => (k, r)) (sinks l) else [])
  /\ ((levelZ T <= levelZ (severityLevel s))%Z
      <-> (forall k, In k (sinks l) -> In (k, r) (newWrites w w')))
  /\ ((levelZ (severityLevel s) < levelZ T)%Z -> newWrites w w' = []).
Proof.
  intros Hb HT w' r.
  assert (Hw : written w'
               = written w
                 ++ (if (levelZ T <=? levelZ (severityLevel s))%Z
                     then map (fun k => (k, r)) (sinks l) else [])).
  { subst w' r. rewrite logCall_eq, log_written.
    rewrite (enabled_threshold _ _ T) by auto using built_wellFormed.
    reflexivity. }
  split; [exact Hw|].
  unfold newWrites. rewrite Hw, drop_app_length.
  destruct (Z.leb_spec (levelZ T) (levelZ (severityLevel s))) as [Hle|Hlt].
  - split; [|lia]. split; [|intros _; exact Hle].
    intros _ k Hk. apply in_map_iff. exists k. auto.
  - split; [|reflexivity]. split; [lia|].
    intros Hall. destruct (built_sinks _ Hb) as [k Hk].
    destruct (Hall k Hk).
Qed.

(** The message of a formatted call, by cases on its arguments. *)
Lemma getMessage_cases (format : string) (args : list Value) :
  (args = [] -> getMessage format args = format)
  /\ (args <> [] -> format <> "" -> getMessage format args = fmt_Sprintf format args)
  /\ (args <> [] -> format = "" ->
      getMessage format args
      = match args with
        | [VStr str] => str
        | _ => fmt_Sprint args
        end).
Proof.
  split; [|split].
  - intros ->. reflexivity.
  - intros Ha Hf. destruct args as [|v args]; [contradiction|].
    unfold getMessage. destruct (String.eqb_spec format ""); [contradiction|reflexivity].
  - intros Ha ->. destruct args as [|v args]; [contradiction|]. reflexivity.
Qed.

(** C9: [Printf] is the info call on the formatted message: it returns,
    its record is appended for every sink exactly when the threshold is
    at or below info, and the record is a JSON object whose level is
    "INFO" and whose message is the formatted one.  The formatted message
    is the format itself when there are no arguments, and
    [fmt.Sprintf(format, args...)] when there are arguments and the
    format is not empty (with an empty format it is [fmt.Sprint] of the
    arguments); so with arguments and a format, the record written for
    every sink carries "INFO" and what [fmt.Sprintf] returns. *)
Theorem Printf_at_info (l : logger) (format : string) (args : list Value)
    (w : World) (T : Level) :
  built l ->
  threshold l w = Some T ->
  let msg := getMessage format args in
  Printf l format args w = Info l msg [] w
  /\ fst (Printf l format args w) = Returned tt
  /\ written (snd (Printf l format args w))
     = written w
       ++ (if (levelZ T <=? levelZ InfoLevel)%Z
           then map (fun k => (k, render l InfoLevel (now w) msg [])) (sinks l)
           else [])
  /\ (exists members,
         render l InfoLevel (now w) msg [] = JSONObject members
         /\ member "level" members = Some (VStr "INFO")
         /\ member "msg" members = Some (VStr msg))
  /\ (args = [] -> msg = format)
  /\ (args <> [] -> format = "" ->
      msg = match args with
            | [VStr str] => str
            | _ => fmt_Sprint args
            end)
  /\ (args <> [] -> format <> "" ->
      msg = fmt_Sprintf format args
      /\ written (snd (Printf l format args w))
         = written w
           ++ (if (levelZ T <=? levelZ InfoLevel)%Z
               then map (fun k => (k, render l InfoLevel (now w)
                                             (fmt_Sprintf format args) []))
                        (sinks l)
               else [])
      /\ exists members,
           render l InfoLevel (now w) (fmt_Sprintf format args) [] = JSONObject members
           /\ member "level" members = Some (VStr "INFO")
           /\ member "msg" members = Some (VStr (fmt_Sprintf format args))).
Proof.
  intros Hb HT msg. pose proof (built_wellFormed _ Hb) as Hwf.
  destruct (getMessage_cases format args) as (Hnone & Hfmt & Hprint).
  assert (Hw : written (snd (Printf l format args w))
               = written w
                 ++ (if (levelZ T <=? levelZ InfoLevel)%Z
                     then map (fun k => (k, render l InfoLevel (now w) msg [])) (sinks l)
                     else [])).
  { unfold Printf. rewrite log_written.
    rewrite (enabled_threshold _ _ T) by assumption. reflexivity. }
  assert (Hr : forall m, exists members,
               render l InfoLevel (now w) m [] = JSONObject members
               /\ member "level" members = Some (VStr "INFO")
               /\ member "msg" members = Some (VStr m)).
  { intros m. unfold render. rewrite (wf_encoder _ Hwf). simpl.
    eexists. split; [reflexivity|]. split; reflexivity. }
  split; [reflexivity|]. split; [apply log_outcome|]. split; [exact Hw|].
  split; [apply Hr|]. split; [exact Hnone|]. split; [exact Hprint|].
  intros Ha Hf. subst msg. rewrite (Hfmt Ha Hf) in Hw.
  split; [exact (Hfmt Ha Hf)|]. split; [exact Hw|apply Hr].
Qed.

(** ** Changing the threshold *)

Lemma SetLogLevel_unsupported_eq (l : logger) (name : string) (w : World) :
  supportedLevel name = false ->
  SetLogLevel l name w = Warn l unsupportedLevelWarning [] w.
Proof.
  unfold supportedLevel, SetLogLevel. simpl.
  repeat (destruct (String.eqb name _); [discriminate|]).
  reflexivity.
Qed.

Lemma SetLogLevel_supported (l : logger) (s : Severity) (w : World) :
  SetLogLevel l (severityName s) w
  = (Returned tt, SetLevel (level l) (severityLevel s) w).
Proof. destruct s; reflexivity. Qed.

Lemma threshold_SetLevel (l : logger) (lv : Level) (w : World) :
  is_Some (threshold l w) -> threshold l (SetLevel (level l) lv w) = Some lv.
Proof.
  unfold threshold. intros Hcell. simpl.
  apply list_lookup_insert_eq, lookup_lt_is_Some, Hcell.
Qed.

(** C3, as the code has it: for a name outside debug, info, warn, error,
    panic, fatal, [SetLogLevel] is the warn call of the same logger with
    the unsupported-level message: it returns, the threshold and every
    other cell stay as they were, and the warning record is appended for
    every sink exactly when the threshold is at or below warn. *)
Theorem SetLogLevel_unsupported (l : logger) (name : string) (w : World) (T : Level) :
  built l ->
  threshold l w = Some T ->
  supportedLevel name = false ->
  let w' := snd (SetLogLevel l name w) in
  SetLogLevel l name w = Warn l unsupportedLevelWarning [] w
  /\ fst (SetLogLevel l name w) = Returned tt
  /\ levels w' = levels w
  /\ threshold l w' = Some T
  /\ written w'
     = written w
       ++ (if (levelZ T <=? levelZ WarnLevel)%Z
           then map (fun k => (k, render l WarnLevel (now w) unsupportedLevelWarning []))
                    (sinks l)
           else []).
Proof.
  intros Hb HT Hbad w'. subst w'.
  rewrite (SetLogLevel_unsupported_eq _ _ _ Hbad). unfold Warn, Warnw.
  split; [reflexivity|]. split; [apply log_outcome|].
  destruct (log_cells l WarnLevel unsupportedLevelWarning [] w) as [Hl _].
  split; [exact Hl|]. split.
  - unfold threshold in *. rewrite Hl. exact HT.
  - rewrite log_written.
    rewrite (enabled_threshold _ _ T) by auto using built_wellFormed.
    reflexivity.
Qed.

(** ** Derived loggers *)

Lemma hasField_render (l : logger) (lvl : Level) (t : nat) (msg : string)
    (keyvals : list Field) (f : Field) :
  In f (core_context (core (sugared l))) ->
  hasField f (render l lvl t msg keyvals).
Proof.
  intros Hf. unfold render, EncodeEntry.
  destruct (core_enc (core (sugared l))); simpl.
  - do 3 right. apply in_or_app. left. exact Hf.
  - apply in_or_app. left. exact Hf.
Qed.

(** Every write of a call carries the fields bound to the logger. *)
Lemma log_bound_field (l : logger) (lvl : Level) (msg : string)
    (keyvals : list Field) (w : World) (f : Field) (x : Sink * Rendered) :
  In f (core_context (core (sugared l))) ->
  In x (newWrites w (snd (SugaredLogger_log (sugared l) lvl msg keyvals w))) ->
  hasField f (snd x).
Proof.
  intros Hf Hx. unfold newWrites in Hx.
  rewrite log_written, drop_app_length in Hx.
  destruct (Core_Enabled _ _ _); [|destruct Hx].
  apply in_map_iff in Hx as (k & <- & _). simpl.
  apply hasField_render, Hf.
Qed.

(** The same for each method of the facade: the six leveled calls and the
    two formatted ones. *)
Lemma facade_bound_field (l : logger) (f : Field) :
  In f (core_context (core (sugared l))) ->
  (forall s msg kvs w x,
      In x (newWrites w (snd (logCall s l msg kvs w))) -> hasField f (snd x))
  /\ (forall format args w x,
        In x (newWrites w (snd (Printf l format args w))) -> hasField f (snd x))
  /\ (forall format args w x,
        In x (newWrites w (snd (Debugf l format args w))) -> hasField f (snd x)).
Proof.
  intros Hf. split; [|split].
  - intros s msg kvs w x. rewrite logCall_eq. apply log_bound_field, Hf.
  - intros format args w x. apply log_bound_field, Hf.
  - intros format args w x. apply log_bound_field, Hf.
Qed.

(** The derived logger renders what the parent renders with the bound
    pairs put before the pairs of the call. *)
Lemma render_With (l : logger) (keyvals : list Field) (lvl : Level) (t : nat)
    (msg : string) (kvs : list Field) :
  render (With l keyvals) lvl t msg kvs = render l lvl t msg (keyvals ++ kvs).
Proof.
  unfold render, EncodeEntry. simpl.
  destruct (core_enc (core (sugared l))); rewrite <- !app_assoc; reflexivity.
Qed.

(** C5: a logger derived by [With] writes to the sinks of its parent,
    which are not empty, and renders every record with the bound pairs
    in it; at threshold [T] a call at severity [s] through the derived
    logger writes that record once for every sink when [T <= s] (and
    [Printf] does when [T] is at or below info), and leaves the
    threshold as it was, so that the next call does the same.  Hence
    every write of every later call through the derived logger, leveled
    or formatted, carries each bound field.  And [SetLogLevel] with the
    name of a severity on the derived logger returns and stores that
    severity in the level cell of the parent, so that the parent's core
    gates by the new threshold. *)
Theorem With_binds_and_shares_gate (l : logger) (keyvals : list Field) (f : Field) :
  built l ->
  In f keyvals ->
  (sinks (With l keyvals) = sinks l
   /\ (exists k, In k (sinks (With l keyvals)))
   /\ (forall lvl t msg kvs,
         render (With l keyvals) lvl t msg kvs = render l lvl t msg (keyvals ++ kvs)
         /\ hasField f (render (With l keyvals) lvl t msg kvs))
   /\ (forall s msg kvs w T,
         threshold l w = Some T ->
         written (snd (logCall s (With l keyvals) msg kvs w))
         = written w
           ++ (if (levelZ T <=? levelZ (severityLevel s))%Z
               then map (fun k => (k, render (With l keyvals) (severityLevel s)
                                             (now w) msg kvs))
                        (sinks l)
               else [])
         /\ threshold l (snd (logCall s (With l keyvals) msg kvs w)) = Some T)
   /\ (forall format args w T,
         threshold l w = Some T ->
         written (snd (Printf (With l keyvals) format args w))
         = written w
           ++ (if (levelZ T <=? levelZ InfoLevel)%Z
               then map (fun k => (k, render (With l keyvals) InfoLevel (now w)
                                             (getMessage format args) []))
                        (sinks l)
               else [])))
  /\ ((forall s msg kvs w x,
         In x (newWrites w (snd (logCall s (With l keyvals) msg kvs w))) ->
         hasField f (snd x))
      /\ (forall format args w x,
            In x (newWrites w (snd (Printf (With l keyvals) format args w))) ->
            hasField f (snd x))
      /\ (forall format args w x,
            In x (newWrites w (snd (Debugf (With l keyvals) format args w))) ->
            hasField f (snd x)))
  /\ level (With l keyvals) = level l
  /\ (forall s w,
        is_Some (threshold l w) ->
        let r := SetLogLevel (With l keyvals) (severityName s) w in
        fst r = Returned tt
        /\ threshold l (snd r) = Some (severityLevel s)
        /\ forall lvl, Core_Enabled (core (sugared l)) lvl (snd r)
                       = (levelZ (severityLevel s) <=? levelZ lvl)%Z).
Proof.
  intros Hb Hf.
  assert (Hwf : wellFormed (With l keyvals))
    by (apply With_wellFormed, built_wellFormed, Hb).
  assert (Hbound : In f (core_context (core (sugared (With l keyvals)))))
    by (simpl; apply in_or_app; right; exact Hf).
  split; [|split; [|split; [reflexivity|]]].
  - split; [reflexivity|]. split; [exact (built_sinks _ Hb)|]. split; [|split].
    + intros lvl t msg kvs. split; [apply render_With|].
      apply hasField_render, Hbound.
    + intros s msg kvs w T HT. rewrite logCall_eq. split.
      * rewrite log_written.
        rewrite (enabled_threshold (With l keyvals) _ T) by assumption.
        reflexivity.
      * destruct (log_cells (With l keyvals) (severityLevel s) msg kvs w) as [Hl _].
        unfold threshold in *. rewrite Hl. exact HT.
    + intros format args w T HT. unfold Printf. rewrite log_written.
      rewrite (enabled_threshold (With l keyvals) _ T) by assumption.
      reflexivity.
  - apply facade_bound_field, Hbound.
  - intros s w Hcell r. subst r. rewrite SetLogLevel_supported. simpl.
    split; [reflexivity|].
    assert (Ht : threshold l (SetLevel (level l) (severityLevel s) w)
                 = Some (severityLevel s)) by (apply threshold_SetLevel, Hcell).
    split; [exact Ht|].
    intros lvl. apply enabled_threshold; [apply built_wellFormed, Hb|exact Ht].
Qed.

(** C2 (what the code does): the logger [With] returns has the parent's
    sinks and level cell but a nil rotator, so both rotation setters
    panic on it with a nil dereference and store nothing. *)
Theorem With_drops_rotator (l : logger) (keyvals : list Field) (n : Z) (w : World) :
  sinks (With l keyvals) = sinks l
  /\ level (With l keyvals) = level l
  /\ rotator (With l keyvals) = None
  /\ SetLogRotationSize (With l keyvals) n w = (Panicked nilDereference, w)
  /\ SetLogRotationCount (With l keyvals) n w = (Panicked nilDereference, w).
Proof. repeat split. Qed.

(** On the logger [NewLogger] returned, the setters store into the
    rotator. *)
Lemma SetLogRotationSize_root (app version : string) (opts : list Option)
    (w w' : World) (l : logger) (n : Z) :
  NewLogger app version opts w = (Returned (inl l), w') ->
  exists r old,
    rotator l = Some r /\ rotators w' !! r = Some old
    /\ fst (SetLogRotationSize l n w') = Returned tt
    /\ rotators (snd (SetLogRotationSize l n w')) !! r
       = Some (mkRotator (Filename old) n (MaxBackups old) (LocalTime old) (Compress old)).
Proof.
  rewrite NewLogger_eq.
  destruct (getZapLogLevel _); try discriminate.
  destruct (firstTargets _ _ _); try discriminate.
  intros [= <- <-]. eexists. eexists.
  split; [reflexivity|]. split; [apply list_lookup_middle; reflexivity|].
  split; [reflexivity|]. simpl.
  rewrite list_lookup_alter_eq.
  rewrite list_lookup_middle by reflexivity. reflexivity.
Qed.

(** ** The records of the tests *)

Lemma instanceID_last (app : string) (pre post : list Option) (id : string) :
  forallb (fun o => negb (isInstanceID o)) post = true ->
  instanceID (applyOptions (pre ++ WithInstanceID id :: post) (initialConfig app)) = id.
Proof.
  intros Hpost. rewrite applyOptions_app. simpl.
  rewrite applyOptions_keep_instanceID by exact Hpost. reflexivity.
Qed.

(** C7: [NewLogger] with [WithOutput b] alone returns a logger; its
    [Info("this is a test message")] returns and makes two writes of one
    JSON object, one to the writer [b] and one to the rotator, the object
    having level "INFO", the message, and the service, version and
    default instance ID of the construction.  And when the options name
    an instance ID (the last [WithInstanceID] counts), every write of
    every call, leveled or formatted, through the logger or a logger
    derived from it carries that ID under "instance_id". *)
Theorem Info_record_and_instance_id (app version : string) (b : Writer) (w : World) :
  (exists l w1,
      NewLogger app version [WithOutput b] w = (Returned (inl l), w1)
      /\ fst (Info l "this is a test message" [] w1) = Returned tt
      /\ newWrites w1 (snd (Info l "this is a test message" [] w1))
         = map (fun k => (k, JSONObject
                               [("level", VStr "INFO");
                                ("time", VTime (now w));
                                ("msg", VStr "this is a test message");
                                ("service", VStr app);
                                ("version", VStr version);
                                ("instance_id", VStr "instance_1")]))
               [WriterSink b; RotatorSink (length (rotators w))])
  /\ (forall pre id post root w1 l,
        forallb (fun o => negb (isInstanceID o)) post = true ->
        NewLogger app version (pre ++ WithInstanceID id :: post) w
        = (Returned (inl root), w1) ->
        derived root l ->
        (forall s msg kvs w' x,
            In x (newWrites w' (snd (logCall s l msg kvs w'))) ->
            hasField ("instance_id", VStr id) (snd x))
        /\ (forall format args w' x,
              In x (newWrites w' (snd (Printf l format args w'))) ->
              hasField ("instance_id", VStr id) (snd x))
        /\ (forall format args w' x,
              In x (newWrites w' (snd (Debugf l format args w'))) ->
              hasField ("instance_id", VStr id) (snd x))).
Proof.
  split.
  - rewrite NewLogger_eq. simpl. eexists. eexists.
    split; [reflexivity|]. split; [apply log_outcome|].
    unfold newWrites, Info, Infow. rewrite log_written, drop_app_length.
    unfold Core_Enabled, AtomicLevel_Enabled. simpl.
    rewrite lookup_first_cell. reflexivity.
  - intros pre id post root w1 l Hpost Hnew Hd.
    apply facade_bound_field.
    destruct (derived_shares _ _ Hd) as (_ & _ & _ & more & ->).
    apply in_or_app. left.
    rewrite NewLogger_eq in Hnew.
    destruct (getZapLogLevel _); try discriminate.
    destruct (firstTargets _ _ _); try discriminate.
    injection Hnew as <- _. simpl.
    rewrite (instanceID_last _ _ _ _ Hpost). auto.
Qed.

End Properties.

(** * The package on the sample loggers *)

Lemma sample_NewLogger :
  NewLogger (rt:=localRuntime) "MyService" "1.0.0" [WithOutput 7] emptyWorld
  = (Returned (inl sampleLogger), sampleWorld).
Proof. reflexivity. Qed.

Lemma quiet_NewLogger :
  NewLogger (rt:=localRuntime) "MyService" "1.0.0"
            [WithOutput 7; WithLogLevel "error"] emptyWorld
  = (Returned (inl quietLogger), quietWorld).
Proof. reflexivity. Qed.

Lemma named_NewLogger :
  NewLogger (rt:=localRuntime) "MyService" "1.0.0"
            ([WithOutput 7] ++ WithInstanceID "my_instance" :: []) emptyWorld
  = (Returned (inl namedLogger), sampleWorld).
Proof. reflexivity. Qed.

Lemma sample_built : built (rt:=localRuntime) sampleLogger.
Proof.
  exists "MyService", "1.0.0", [WithOutput 7], emptyWorld, sampleLogger, sampleWorld.
  split; [exact sample_NewLogger|constructor].
Qed.

Lemma quiet_built : built (rt:=localRuntime) quietLogger.
Proof.
  exists "MyService", "1.0.0", [WithOutput 7; WithLogLevel "error"],
         emptyWorld, quietLogger, quietWorld.
  split; [exact quiet_NewLogger|constructor].
Qed.

(** Without the network the construction with a syslog target returns the
    dial error and no logger. *)
Lemma offline_NewLogger :
  NewLogger (rt:=offlineRuntime) "MyService" "1.0.0"
            [WithSyslog "10.0.0.1:514" "udp"] emptyWorld
  = (Returned (inr "dial failed"), mkWorld [InfoLevel; InfoLevel] [] [] 0).
Proof. reflexivity. Qed.

(** C8 on [WithLogLevel("verbose")]. *)
Lemma NewLogger_unsupported_level_witness :
  supportedLevel "verbose" = false
  /\ NewLogger (rt:=localRuntime) "MyService" "1.0.0"
               [WithLogLevel "verbose"; WithRotationSize 2] emptyWorld
     = (Panicked "unsupported log level verbose. debug, info, warn, error, panic and fatal are the only supported loglevels.",
        emptyWorld).
Proof.
  split; [reflexivity|].
  exact (NewLogger_unsupported_level (rt:=localRuntime) "MyService" "1.0.0"
           [] [WithRotationSize 2] "verbose" emptyWorld eq_refl eq_refl).
Defined.

(** C4 on the sample logger at threshold info: a warn call is written to
    both sinks, and a debug call to none. *)
Lemma logCall_admission_witness :
  built (rt:=localRuntime) sampleLogger
  /\ threshold sampleLogger sampleWorld = Some InfoLevel
  /\ written (snd (logCall SevWarn sampleLogger "disk almost full"
                           [("free", VInt 3)] sampleWorld))
     = [(WriterSink 7, sampleObject "WARN" "disk almost full" "instance_1" [("free", VInt 3)]);
        (RotatorSink 0, sampleObject "WARN" "disk almost full" "instance_1" [("free", VInt 3)])]
  /\ newWrites sampleWorld (snd (logCall SevDebug sampleLogger "probe" [] sampleWorld)) = [].
Proof.
  split; [exact sample_built|]. split; [reflexivity|]. split.
  - exact (proj1 (logCall_admission (rt:=localRuntime) SevWarn sampleLogger "disk almost full"
                            [("free", VInt 3)] sampleWorld InfoLevel
                            sample_built eq_refl)).
  - apply (logCall_admission (rt:=localRuntime) SevDebug sampleLogger "probe" []
                     sampleWorld InfoLevel sample_built eq_refl).
    reflexivity.
Defined.

(** C9 on the sample logger: a format with one integer argument. *)
Lemma Printf_at_info_witness :
  built (rt:=localRuntime) sampleLogger
  /\ threshold sampleLogger sampleWorld = Some InfoLevel
  /\ [VInt 8080] <> []
  /\ "port %d" <> ""
  /\ fmt_Sprintf (GoRuntime:=localRuntime) "port %d" [VInt 8080] = "port 8080"
  /\ written (snd (Printf (rt:=localRuntime) sampleLogger "port %d" [VInt 8080]
                          sampleWorld))
     = [(WriterSink 7, sampleObject "INFO" "port 8080" "instance_1" []);
        (RotatorSink 0, sampleObject "INFO" "port 8080" "instance_1" [])]
  /\ written (snd (Printf (rt:=localRuntime) sampleLogger "listening" [] sampleWorld))
     = [(WriterSink 7, sampleObject "INFO" "listening" "instance_1" []);
        (RotatorSink 0, sampleObject "INFO" "listening" "instance_1" [])].
Proof.
  assert (Ha : [VInt 8080] <> []) by discriminate.
  assert (Hf : "port %d" <> "") by discriminate.
  split; [exact sample_built|]. split; [reflexivity|].
  split; [exact Ha|]. split; [exact Hf|]. split; [reflexivity|].
  pose proof (Printf_at_info (rt:=localRuntime) sampleLogger "port %d" [VInt 8080]
                sampleWorld InfoLevel sample_built eq_refl)
    as (_ & _ & _ & _ & _ & _ & Hfmt).
  destruct (Hfmt Ha Hf) as (_ & Hw & _).
  split; [exact Hw|].
  exact (proj1 (proj2 (proj2
           (Printf_at_info (rt:=localRuntime) sampleLogger "listening" []
                           sampleWorld InfoLevel sample_built eq_refl)))).
Defined.

(** C3 as stated fails at threshold error: the logger built with
    [WithLogLevel("error")] is given the unsupported name "verbose"; the
    call returns and nothing is written, no warning record reaches a
    sink. *)
Lemma SetLogLevel_unsupported_silent :
  NewLogger (rt:=localRuntime) "MyService" "1.0.0"
            [WithOutput 7; WithLogLevel "error"] emptyWorld
  = (Returned (inl quietLogger), quietWorld)
  /\ supportedLevel "verbose" = false
  /\ threshold quietLogger quietWorld = Some ErrorLevel
  /\ SetLogLevel quietLogger "verbose" quietWorld = (Returned tt, quietWorld)
  /\ newWrites quietWorld (snd (SetLogLevel quietLogger "verbose" quietWorld)) = []
  /\ sinks quietLogger = [WriterSink 7; RotatorSink 0].
Proof. repeat split. Qed.

(** C3 as amended, on the sample logger (threshold info: the warning is
    written) and on the quiet one (threshold error: it is not). *)
Lemma SetLogLevel_unsupported_witness :
  built (rt:=localRuntime) sampleLogger
  /\ threshold sampleLogger sampleWorld = Some InfoLevel
  /\ supportedLevel "verbose" = false
  /\ fst (SetLogLevel sampleLogger "verbose" sampleWorld) = Returned tt
  /\ threshold sampleLogger (snd (SetLogLevel sampleLogger "verbose" sampleWorld))
     = Some InfoLevel
  /\ written (snd (SetLogLevel sampleLogger "verbose" sampleWorld))
     = [(WriterSink 7, sampleObject "WARN" unsupportedLevelWarning "instance_1" []);
        (RotatorSink 0, sampleObject "WARN" unsupportedLevelWarning "instance_1" [])]
  /\ written (snd (SetLogLevel quietLogger "verbose" quietWorld)) = [].
Proof.
  split; [exact sample_built|]. split; [reflexivity|]. split; [reflexivity|].
  pose proof (SetLogLevel_unsupported (rt:=localRuntime) sampleLogger "verbose"
                sampleWorld InfoLevel sample_built eq_refl eq_refl)
    as (_ & Hret & _ & Hthr & Hwr).
  pose proof (SetLogLevel_unsupported (rt:=localRuntime) quietLogger "verbose"
                quietWorld ErrorLevel quiet_built eq_refl eq_refl)
    as (_ & _ & _ & _ & Hquiet).
  split; [exact Hret|]. split; [exact Hthr|]. split; [exact Hwr|exact Hquiet].
Defined.

(** C5 on the sample logger: two calls in a row through the derived
    logger are both written with the bound field, and setting "error"
    through it raises the parent's threshold. *)
Lemma With_binds_and_shares_gate_witness :
  built (rt:=localRuntime) sampleLogger
  /\ In ("k", VStr "v") [("k", VStr "v")]
  /\ written (snd (logCall SevInfo (With sampleLogger [("k", VStr "v")])
                           "first" [] sampleWorld))
     = [(WriterSink 7, sampleObject "INFO" "first" "instance_1" [("k", VStr "v")]);
        (RotatorSink 0, sampleObject "INFO" "first" "instance_1" [("k", VStr "v")])]
  /\ written (snd (logCall SevWarn (With sampleLogger [("k", VStr "v")])
                           "second" [("n", VInt 2)]
                           (snd (logCall SevInfo (With sampleLogger [("k", VStr "v")])
                                         "first" [] sampleWorld))))
     = [(WriterSink 7, sampleObject "INFO" "first" "instance_1" [("k", VStr "v")]);
        (RotatorSink 0, sampleObject "INFO" "first" "instance_1" [("k", VStr "v")]);
        (WriterSink 7, sampleObject "WARN" "second" "instance_1"
                         [("k", VStr "v"); ("n", VInt 2)]);
        (RotatorSink 0, sampleObject "WARN" "second" "instance_1"
                          [("k", VStr "v"); ("n", VInt 2)])]
  /\ hasField ("k", VStr "v")
       (sampleObject "WARN" "second" "instance_1" [("k", VStr "v"); ("n", VInt 2)])
  /\ threshold sampleLogger
       (snd (SetLogLevel (With sampleLogger [("k", VStr "v")]) "error" sampleWorld))
     = Some ErrorLevel.
Proof.
  split; [exact sample_built|]. split; [left; reflexivity|].
  pose proof (With_binds_and_shares_gate (rt:=localRuntime) sampleLogger
                [("k", VStr "v")] ("k", VStr "v") sample_built
                (or_introl eq_refl))
    as ((_ & _ & Hrender & Hcall & _) & _ & _ & Hgate).
  split; [exact (proj1 (Hcall SevInfo "first" [] sampleWorld InfoLevel eq_refl))|].
  split.
  - exact (proj1 (Hcall SevWarn "second" [("n", VInt 2)]
                        (snd (logCall SevInfo (With sampleLogger [("k", VStr "v")])
                                      "first" [] sampleWorld))
                        InfoLevel
                        (proj2 (Hcall SevInfo "first" [] sampleWorld InfoLevel eq_refl)))).
  - split.
    + exact (proj2 (Hrender WarnLevel 0 "second" [("n", VInt 2)])).
    + apply (Hgate SevError sampleWorld). eexists. reflexivity.
Defined.

(** C7 on the logger of the third test: the record of its [Info] call
    carries "my_instance". *)
Lemma Info_record_and_instance_id_witness :
  NewLogger (rt:=localRuntime) "MyService" "1.0.0"
            ([WithOutput 7] ++ WithInstanceID "my_instance" :: []) emptyWorld
  = (Returned (inl namedLogger), sampleWorld)
  /\ derived namedLogger namedLogger
  /\ In (WriterSink 7, sampleObject "INFO" "this is a test message" "my_instance" [])
        (newWrites sampleWorld
           (snd (logCall SevInfo namedLogger "this is a test message" [] sampleWorld)))
  /\ hasField ("instance_id", VStr "my_instance")
        (sampleObject "INFO" "this is a test message" "my_instance" []).
Proof.
  assert (Hin : In (WriterSink 7,
                    sampleObject "INFO" "this is a test message" "my_instance" [])
                   (newWrites sampleWorld
                      (snd (logCall SevInfo namedLogger "this is a test message" []
                                    sampleWorld))))
    by (left; reflexivity).
  split; [exact named_NewLogger|]. split; [constructor|]. split; [exact Hin|].
  exact (proj1 (proj2 (Info_record_and_instance_id (rt:=localRuntime)
                         "MyService" "1.0.0" 7 emptyWorld)
                  [WithOutput 7] "my_instance" [] namedLogger sampleWorld namedLogger
                  eq_refl named_NewLogger (derived_root namedLogger))
           SevInfo "this is a test message" [] sampleWorld _ Hin).
Defined.

(** * Further properties of the package *)

Section Further.

Context `{rt : GoRuntime}.

(** ** Options *)

Lemma optionHolds_applyOption (o : Option) (c : config) :
  optionHolds o (applyOption o c).
Proof. destruct o; simpl; auto. Qed.

Lemma optionHolds_other (o x : Option) (c : config) :
  optionKind x <> optionKind o -> optionHolds o c -> optionHolds o (applyOption x c).
Proof. destruct o, x; simpl; intros Hk Hc; try exact Hc; contradiction. Qed.

Lemma optionHolds_applyOptions (o : Option) (post : list Option) :
  forall c, noneOfKind o post = true -> optionHolds o c ->
            optionHolds o (applyOptions post c).
Proof.
  induction post as [|x post IH]; intros c Hnone Hc; simpl in *; [exact Hc|].
  apply andb_prop in Hnone as [Hx Hnone].
  apply IH; [exact Hnone|].
  apply optionHolds_other; [|exact Hc].
  apply Nat.eqb_neq. destruct (Nat.eqb _ _); [discriminate|reflexivity].
Qed.

(** X1: the last option of a kind decides: when no later option is of
    the kind of [o], the configuration [NewLogger] works from holds what
    [o] stores, whatever came before. *)
Theorem option_last_wins (pre post : list Option) (o : Option) (c : config) :
  noneOfKind o post = true ->
  optionHolds o (applyOptions (pre ++ o :: post) c).
Proof.
  intros Hnone. rewrite applyOptions_app. simpl.
  apply optionHolds_applyOptions; [exact Hnone|apply optionHolds_applyOption].
Qed.

Lemma applyOption_commute (a b : Option) (c : config) :
  optionKind a <> optionKind b ->
  applyOption a (applyOption b c) = applyOption b (applyOption a c).
Proof. destruct a, b; simpl; intros Hk; try reflexivity; contradiction. Qed.

Lemma applyOption_override (a b : Option) (c : config) :
  optionKind a = optionKind b ->
  applyOption b (applyOption a c) = applyOption b c.
Proof. destruct a, b; simpl; intros Hk; try discriminate; reflexivity. Qed.

Lemma applyOptions_overridden (mid : list Option) (a b : Option) :
  optionKind a = optionKind b ->
  forall c, applyOptions (a :: mid ++ [b]) c = applyOptions (mid ++ [b]) c.
Proof.
  intros Hk. induction mid as [|m mid IH]; intros c; simpl.
  - apply applyOption_override, Hk.
  - destruct (Nat.eq_dec (optionKind a) (optionKind m)) as [Hm|Hm].
    + rewrite applyOption_override by exact Hm. reflexivity.
    + rewrite applyOption_commute by (intros E; apply Hm; symmetry; exact E).
      apply (IH (applyOption m c)).
Qed.

Lemma applyOptions_overridden_then (mid post : list Option) (a b : Option) (c : config) :
  optionKind a = optionKind b ->
  applyOptions (a :: mid ++ b :: post) c = applyOptions (mid ++ b :: post) c.
Proof.
  intros Hk.
  replace (mid ++ b :: post) with ((mid ++ [b]) ++ post)
    by (rewrite <- app_assoc; reflexivity).
  rewrite (applyOptions_app (mid ++ [b]) post).
  rewrite <- (applyOptions_overridden mid a b Hk c).
  change (a :: (mid ++ [b]) ++ post) with ((a :: mid ++ [b]) ++ post).
  apply applyOptions_app.
Qed.

(** X2: an option followed, anywhere later, by an option of the same kind
    has no effect on the construction: dropping it gives the same
    outcome and the same world. *)
Theorem NewLogger_overridden_option (app version : string)
    (pre mid post : list Option) (a b : Option) (w : World) :
  optionKind a = optionKind b ->
  NewLogger app version (pre ++ a :: mid ++ b :: post) w
  = NewLogger app version (pre ++ mid ++ b :: post) w.
Proof.
  intros Hk. rewrite !NewLogger_eq.
  assert (E : applyOptions (pre ++ a :: mid ++ b :: post) (initialConfig app)
              = applyOptions (pre ++ mid ++ b :: post) (initialConfig app)).
  { rewrite (applyOptions_app pre (a :: mid ++ b :: post)).
    rewrite (applyOptions_app pre (mid ++ b :: post)).
    apply applyOptions_overridden_then, Hk. }
  rewrite E. reflexivity.
Qed.

(** X3: options of different kinds can be swapped: the construction has
    the same outcome and leaves the same world. *)
Theorem NewLogger_options_commute (app version : string)
    (pre post : list Option) (a b : Option) (w : World) :
  optionKind a <> optionKind b ->
  NewLogger app version (pre ++ a :: b :: post) w
  = NewLogger app version (pre ++ b :: a :: post) w.
Proof.
  intros Hk. rewrite !NewLogger_eq.
  assert (E : applyOptions (pre ++ a :: b :: post) (initialConfig app)
              = applyOptions (pre ++ b :: a :: post) (initialConfig app)).
  { rewrite !applyOptions_app. simpl. f_equal.
    apply applyOption_commute. intros E. apply Hk. symmetry. exact E. }
  rewrite E. reflexivity.
Qed.

(** ** Level names *)

Lemma getZapLogLevel_returned (name : string) (lv : Level) :
  getZapLogLevel name = Returned lv
  <-> name = LowercaseString lv /\ lv <> DPanicLevel.
Proof.
  split.
  - unfold getZapLogLevel.
    repeat match goal with
           | |- context [String.eqb name ?x] =>
               destruct (String.eqb_spec name x) as [->|_];
               [intros [= <-]; split; [reflexivity|discriminate]|]
           end.
    discriminate.
  - intros [-> Hd]. destruct lv; try reflexivity. contradiction.
Qed.

(** X4: [getZapLogLevel] returns a level exactly for the lower-case name
    of that level, dpanic excepted: the six names are matched as written
    (no other case, no padding); every other string makes it panic, with
    the unsupported-level message naming the string; it never ends the
    process. *)
Theorem getZapLogLevel_names (name : string) :
  (forall lv, getZapLogLevel name = Returned lv
              <-> name = LowercaseString lv /\ lv <> DPanicLevel)
  /\ ((forall lv, lv <> DPanicLevel -> name <> LowercaseString lv) ->
      getZapLogLevel name = Panicked (unsupportedLevel name))
  /\ (getZapLogLevel name = Panicked (unsupportedLevel name)
      <-> supportedLevel name = false)
  /\ (forall n, getZapLogLevel name <> Exited n).
Proof.
  split; [intros lv; apply getZapLogLevel_returned|].
  destruct (getZapLogLevel_outcome name) as [[s Hs]|Hp].
  - assert (Hsup : supportedLevel name = true).
    { apply getZapLogLevel_returned in Hs as [-> _]. destruct s; reflexivity. }
    split; [|split].
    + intros Hother. apply getZapLogLevel_returned in Hs as [Hn Hd].
      destruct (Hother _ Hd Hn).
    + rewrite Hs, Hsup. split; discriminate.
    + rewrite Hs. discriminate.
  - split; [intros _; exact Hp|]. split.
    + split; [|intros _; exact Hp]. intros _.
      destruct (supportedLevel name) eqn:Hsup; [|reflexivity].
      unfold supportedLevel in Hsup. simpl in Hsup.
      unfold getZapLogLevel in Hp.
      repeat match type of Hp with
             | context [String.eqb name ?x] =>
                 destruct (String.eqb name x); [discriminate|]
             end.
      discriminate.
    + rewrite Hp. discriminate.
Qed.

Lemma supported_cases (name : string) :
  (exists s, name = severityName s) \/ supportedLevel name = false.
Proof.
  unfold supportedLevel. simpl.
  destruct (String.eqb_spec name "debug") as [->|_]; [left; exists SevDebug; reflexivity|].
  destruct (String.eqb_spec name "info") as [->|_]; [left; exists SevInfo; reflexivity|].
  destruct (String.eqb_spec name "warn") as [->|_]; [left; exists SevWarn; reflexivity|].
  destruct (String.eqb_spec name "error") as [->|_]; [left; exists SevError; reflexivity|].
  destruct (String.eqb_spec name "panic") as [->|_]; [left; exists SevPanic; reflexivity|].
  destruct (String.eqb_spec name "fatal") as [->|_]; [left; exists SevFatal; reflexivity|].
  right. reflexivity.
Qed.

(** X5: [SetLogLevel] accepts the names [getZapLogLevel] accepts and
    stores the level it returns; on the names [getZapLogLevel] panics on
    it is the warn call; it returns for every string. *)
Theorem SetLogLevel_agrees_with_getZapLogLevel (l : logger) (name : string) (w : World) :
  fst (SetLogLevel l name w) = Returned tt
  /\ (forall lv, getZapLogLevel name = Returned lv ->
                 SetLogLevel l name w = (Returned tt, SetLevel (level l) lv w))
  /\ (forall v, getZapLogLevel name = Panicked v ->
                SetLogLevel l name w = Warn l unsupportedLevelWarning [] w).
Proof.
  destruct (supported_cases name) as [[s ->]|Hbad].
  - rewrite SetLogLevel_supported. split; [reflexivity|]. split.
    + intros lv Hlv. destruct s; injection Hlv as <-; reflexivity.
    + intros v Hv. destruct s; discriminate.
  - rewrite (SetLogLevel_unsupported_eq _ _ _ Hbad).
    split; [apply log_outcome|]. split; [|reflexivity].
    intros lv Hlv. rewrite (getZapLogLevel_supported _ Hbad) in Hlv. discriminate.
Qed.

(** ** What [NewLogger] builds *)

Lemma supported_returns (name : string) :
  supportedLevel name = true <-> exists lv, getZapLogLevel name = Returned lv.
Proof.
  destruct (supported_cases name) as [[s ->]|Hbad].
  - split; intros _; [exists (severityLevel s)|]; destruct s; reflexivity.
  - rewrite Hbad, (getZapLogLevel_supported _ Hbad).
    split; [discriminate|intros [lv Hlv]; discriminate].
Qed.

Lemma returned_severity (name : string) (lv : Level) :
  getZapLogLevel name = Returned lv ->
  exists s, name = severityName s /\ lv = severityLevel s.
Proof.
  intros Hlv. apply getZapLogLevel_returned in Hlv as [-> Hd].
  destruct lv; try contradiction;
    [exists SevDebug|exists SevInfo|exists SevWarn
    |exists SevError|exists SevPanic|exists SevFatal]; split; reflexivity.
Qed.


(** X7: the rotator of the logger [NewLogger] returns is a new object,
    and it holds the log path, the rotation size and the rotation count
    of the configuration, with local time on and compression off; the
    rotators that existed are left as they were. *)
Theorem NewLogger_rotator (app version : string) (opts : list Option)
    (w w' : World) (l : logger) :
  NewLogger app version opts w = (Returned (inl l), w') ->
  rotator l = Some (length (rotators w))
  /\ rotators w'
     = rotators w
       ++ [mkRotator (logPath (applyOptions opts (initialConfig app)))
                     (rotationSize (applyOptions opts (initialConfig app)))
                     (rotationCount (applyOptions opts (initialConfig app)))
                     true false].
Proof.
  rewrite NewLogger_eq.
  destruct (getZapLogLevel _); try discriminate.
  destruct (firstTargets _ _ _); try discriminate.
  intros [= <- <-]. split; reflexivity.
Qed.

(** X8: the logger [NewLogger] returns starts at the threshold its
    configuration names: the level name is the name of a severity, the
    logger's level cell is new and holds that severity, and the core
    gates by it. *)
Theorem NewLogger_threshold (app version : string) (opts : list Option)
    (w w' : World) (l : logger) :
  NewLogger app version opts w = (Returned (inl l), w') ->
  level l = length (levels w)
  /\ exists s,
       logLevel (applyOptions opts (initialConfig app)) = severityName s
       /\ threshold l w' = Some (severityLevel s)
       /\ forall lvl, Core_Enabled (core (sugared l)) lvl w'
                      = (levelZ (severityLevel s) <=? levelZ lvl)%Z.
Proof.
  intros Hnew. pose proof (NewLogger_wellFormed _ _ _ _ _ _ Hnew) as Hwf.
  rewrite NewLogger_eq in Hnew.
  destruct (getZapLogLevel _) as [lv| |] eqn:Hlv; try discriminate.
  destruct (returned_severity _ _ Hlv) as (s & Hname & ->).
  destruct (firstTargets _ _ _); try discriminate.
  injection Hnew as <- <-. split; [reflexivity|].
  exists s. split; [exact Hname|].
  split; [apply lookup_first_cell|].
  intros lvl. apply enabled_threshold; [exact Hwf|apply lookup_first_cell].
Qed.

(** X9: [NewLogger] returns an error exactly when the level name is
    supported, a syslog target is configured and the dial fails, and the
    error is the dial's; it returns a logger exactly when the level name
    is supported and either no syslog target is configured or the dial
    succeeds. *)
Theorem NewLogger_outcome (app version : string) (opts : list Option) (w : World) :
  (forall err,
      fst (NewLogger app version opts w) = Returned (inr err)
      <-> supportedLevel (logLevel (applyOptions opts (initialConfig app))) = true
          /\ syslogConn (applyOptions opts (initialConfig app)) <> ""
          /\ syslog_Dial (syslogProtocol (applyOptions opts (initialConfig app)))
                         (syslogConn (applyOptions opts (initialConfig app)))
                         (app +:+ "-" +:+ version) = Some err)
  /\ ((exists l, fst (NewLogger app version opts w) = Returned (inl l))
      <-> supportedLevel (logLevel (applyOptions opts (initialConfig app))) = true
          /\ (syslogConn (applyOptions opts (initialConfig app)) = ""
              \/ syslog_Dial (syslogProtocol (applyOptions opts (initialConfig app)))
                             (syslogConn (applyOptions opts (initialConfig app)))
                             (app +:+ "-" +:+ version) = None)).
Proof.
  rewrite NewLogger_eq.
  set (c := applyOptions opts (initialConfig app)).
  pose proof (supported_returns (logLevel c)) as Hsup.
  destruct (getZapLogLevel (logLevel c)) as [lv|v|n].
  - assert (Hs : supportedLevel (logLevel c) = true) by (apply Hsup; eauto).
    unfold firstTargets, GetSyslog.
    destruct (String.eqb_spec (syslogConn c) "") as [Hc|Hc].
    + split.
      * intros err. destruct (out c); simpl; split;
          [discriminate|intros (_ & Hne & _); contradiction
          |discriminate|intros (_ & Hne & _); contradiction].
      * destruct (out c); simpl; split; eauto.
    + destruct (syslog_Dial _ _ _) as [e|].
      * split.
        -- intros err. simpl. split.
           ++ intros [= ->]. auto.
           ++ intros (_ & _ & [= ->]). reflexivity.
        -- simpl. split; [intros [l Hl]; discriminate|].
           intros (_ & [Hc'|Hd]); [contradiction|discriminate].
      * split.
        -- intros err. destruct (out c); simpl; split;
             [discriminate|intros (_ & _ & Hd); discriminate
             |discriminate|intros (_ & _ & Hd); discriminate].
        -- destruct (out c); simpl; split; eauto.
  - assert (Hs : supportedLevel (logLevel c) <> true).
    { intros Ht. apply Hsup in Ht as [lv Hlv]. discriminate. }
    simpl. split; [intros err|]; split;
      try discriminate; try (intros (Ht & _); contradiction).
    intros [l Hl]. discriminate.
  - assert (Hs : supportedLevel (logLevel c) <> true).
    { intros Ht. apply Hsup in Ht as [lv Hlv]. discriminate. }
    simpl. split; [intros err|]; split;
      try discriminate; try (intros (Ht & _); contradiction).
    intros [l Hl]. discriminate.
Qed.

(** X10: whatever its outcome, [NewLogger] writes no record and leaves
    the clock alone, and the level cells and rotators that existed keep
    their addresses and contents: it only adds cells after them. *)
Theorem NewLogger_frame (app version : string) (opts : list Option) (w : World) :
  written (snd (NewLogger app version opts w)) = written w
  /\ now (snd (NewLogger app version opts w)) = now w
  /\ (exists more, levels (snd (NewLogger app version opts w)) = levels w ++ more)
  /\ (exists more, rotators (snd (NewLogger app version opts w)) = rotators w ++ more).
Proof.
  rewrite NewLogger_eq.
  destruct (getZapLogLevel _) as [lv|v|n];
    [destruct (firstTargets _ _ _)| |]; simpl;
    repeat split; try reflexivity;
    try (exists []; symmetry; apply app_nil_r);
    try (rewrite <- app_assoc; eexists; reflexivity);
    try (eexists; reflexivity).
Qed.

(** X11: a logger built while another logger's cells exist shares
    neither with it: its level cell is a different one, building it
    leaves the other's threshold as it is, and whatever name is given to
    its [SetLogLevel], and whatever size to its [SetLogRotationSize], in
    whatever world, the other's threshold and the rotators that existed
    stay as they are. *)
Theorem separate_loggers_independent (app version : string) (opts : list Option)
    (w w' : World) (l1 l2 : logger) :
  is_Some (threshold l1 w) ->
  NewLogger app version opts w = (Returned (inl l2), w') ->
  level l2 <> level l1
  /\ threshold l1 w' = threshold l1 w
  /\ (forall name wx,
        threshold l1 (snd (SetLogLevel l2 name wx)) = threshold l1 wx)
  /\ (forall r1 n wx,
        is_Some (rotators w !! r1) ->
        rotators (snd (SetLogRotationSize l2 n wx)) !! r1 = rotators wx !! r1).
Proof.
  intros Hcell Hnew.
  apply lookup_lt_is_Some in Hcell.
  rewrite NewLogger_eq in Hnew.
  destruct (getZapLogLevel _) as [lv| |]; try discriminate.
  destruct (firstTargets _ _ _) as [targets|]; try discriminate.
  injection Hnew as <- <-. simpl in *.
  assert (Hne : length (levels w) <> level l1) by lia.
  split; [exact Hne|]. split; [|split].
  - unfold threshold. simpl. rewrite <- app_assoc.
    apply lookup_app_l, Hcell.
  - intros name wx. unfold threshold.
    destruct (supported_cases name) as [[s ->]|Hbad].
    + rewrite SetLogLevel_supported. simpl.
      apply list_lookup_insert_ne, Hne.
    + rewrite (SetLogLevel_unsupported_eq _ _ _ Hbad). unfold Warn, Warnw.
      match goal with
      | |- levels (snd (SugaredLogger_log (sugared ?l2) _ _ _ _)) !! _ = _ =>
          destruct (log_cells l2 WarnLevel unsupportedLevelWarning [] wx) as [-> _]
      end.
      reflexivity.
  - intros r1 n wx Hr1. apply lookup_lt_is_Some in Hr1.
    unfold SetLogRotationSize, storeRotator. simpl.
    apply list_lookup_alter_ne. lia.
Qed.

(** ** Thresholds and calls *)

(** X12: after [SetLogLevel] with the name of severity [T], given through
    the logger or any logger derived from it, a call at severity [s]
    through the logger is written to every sink when [T <= s] and to none
    otherwise; the [SetLogLevel] itself writes nothing and leaves the
    rotators alone. *)
Theorem SetLogLevel_then_admission (l d : logger) (T s : Severity)
    (msg : string) (keyvals : list Field) (w : World) :
  built l ->
  derived l d ->
  is_Some (threshold l w) ->
  let w1 := snd (SetLogLevel d (severityName T) w) in
  written w1 = written w
  /\ rotators w1 = rotators w
  /\ written (snd (logCall s l msg keyvals w1))
     = written w
       ++ (if (levelZ (severityLevel T) <=? levelZ (severityLevel s))%Z
           then map (fun k => (k, render l (severityLevel s) (now w) msg keyvals))
                    (sinks l)
           else []).
Proof.
  intros Hb Hd Hcell w1. subst w1.
  destruct (derived_shares _ _ Hd) as (Hlevel & _).
  rewrite SetLogLevel_supported, Hlevel.
  cbn [snd]. split; [reflexivity|]. split; [reflexivity|].
  rewrite logCall_eq, log_written.
  rewrite (enabled_threshold l (severityLevel s) (severityLevel T)).
  - reflexivity.
  - apply built_wellFormed, Hb.
  - apply threshold_SetLevel, Hcell.
Qed.

(** X13: a panic call always panics with its message and a fatal call
    always ends the process with code 1, the other four return; the
    fatal record is written to every sink at every threshold, and at
    threshold fatal the panic call panics without writing anything. *)
Theorem logCall_outcome (s : Severity) (l : logger) (msg : string)
    (keyvals : list Field) (w : World) (T : Level) :
  built l ->
  threshold l w = Some T ->
  fst (logCall s l msg keyvals w)
  = match s with
    | SevPanic => Panicked msg
    | SevFatal => Exited 1
    | _ => Returned tt
    end
  /\ written (snd (Fatal l msg keyvals w))
     = written w ++ map (fun k => (k, render l FatalLevel (now w) msg keyvals)) (sinks l)
  /\ (T = FatalLevel -> Panic l msg keyvals w = (Panicked msg, w)).
Proof.
  intros Hb HT. pose proof (built_wellFormed _ Hb) as Hwf.
  split; [|split].
  - rewrite logCall_eq, log_outcome. destruct s; reflexivity.
  - unfold Fatal, Fatalw. rewrite log_written.
    rewrite (enabled_threshold _ _ T) by assumption.
    destruct T; reflexivity.
  - intros ->. unfold Panic, Panicw, SugaredLogger_log.
    rewrite (enabled_threshold _ _ FatalLevel) by assumption. reflexivity.
Qed.

(** X14: the record of the logger [NewLogger] returns is a JSON object
    that starts with level (in capitals), time, message, service and
    version as given to [NewLogger] (the service name not lower-cased)
    and the instance ID of the configuration, goes on with the pairs of
    the call, and ends with a stack trace from error upward; a logger
    derived by two [With] in a row puts the pairs of the first, then of
    the second, before the pairs of the call, and is the logger one
    [With] of the joined pairs gives. *)
Theorem record_shape (app version : string) (opts : list Option) (w w' : World)
    (root : logger) (a b : list Field) (lvl : Level) (t : nat) (msg : string)
    (keyvals : list Field) :
  NewLogger app version opts w = (Returned (inl root), w') ->
  render root lvl t msg keyvals
  = JSONObject (headMembers lvl t msg app version
                            (instanceID (applyOptions opts (initialConfig app)))
                ++ keyvals ++ stackMembers lvl)
  /\ render (With (With root a) b) lvl t msg keyvals
     = JSONObject (headMembers lvl t msg app version
                               (instanceID (applyOptions opts (initialConfig app)))
                   ++ a ++ b ++ keyvals ++ stackMembers lvl)
  /\ With (With root a) b = With root (a ++ b).
Proof.
  rewrite NewLogger_eq.
  destruct (getZapLogLevel _); try discriminate.
  destruct (firstTargets _ _ _); try discriminate.
  intros [= <- _]. unfold render, stackMembers, Level_Enabled, With. simpl.
  split; [reflexivity|]. split.
  - rewrite <- ?app_assoc. reflexivity.
  - unfold SugaredLogger_With, Core_With. simpl.
    rewrite <- ?app_assoc. reflexivity.
Qed.

(** X15: the formatted debug call is the debug call on the formatted
    message: it returns; at threshold debug its record, a JSON object
    with level "DEBUG" and the formatted message, is written to every
    sink, and at every other threshold the world is left as it was.  The
    formatted message is the format itself when there are no arguments
    and [fmt.Sprintf(format, args...)] when there are arguments and the
    format is not empty; in that case, at threshold debug, the record
    written carries "DEBUG" and what [fmt.Sprintf] returns. *)
Theorem Debugf_at_debug (l : logger) (format : string) (args : list Value)
    (w : World) (T : Level) :
  built l ->
  threshold l w = Some T ->
  Debugf l format args w = Debug l (getMessage format args) [] w
  /\ fst (Debugf l format args w) = Returned tt
  /\ (T = DebugLevel ->
      written (snd (Debugf l format args w))
      = written w
        ++ map (fun k => (k, render l DebugLevel (now w) (getMessage format args) []))
               (sinks l))
  /\ (T <> DebugLevel -> snd (Debugf l format args w) = w)
  /\ (exists members,
         render l DebugLevel (now w) (getMessage format args) [] = JSONObject members
         /\ member "level" members = Some (VStr "DEBUG")
         /\ member "msg" members = Some (VStr (getMessage format args)))
  /\ (args = [] -> getMessage format args = format)
  /\ (args <> [] -> format <> "" ->
      getMessage format args = fmt_Sprintf format args
      /\ (T = DebugLevel ->
          written (snd (Debugf l format args w))
          = written w
            ++ map (fun k => (k, render l DebugLevel (now w)
                                        (fmt_Sprintf format args) []))
                   (sinks l))
      /\ exists members,
           render l DebugLevel (now w) (fmt_Sprintf format args) [] = JSONObject members
           /\ member "level" members = Some (VStr "DEBUG")
           /\ member "msg" members = Some (VStr (fmt_Sprintf format args))).
Proof.
  intros Hb HT. pose proof (built_wellFormed _ Hb) as Hwf.
  destruct (getMessage_cases format args) as (Hnone & Hfmt & _).
  assert (Hw : T = DebugLevel ->
               written (snd (Debugf l format args w))
               = written w
                 ++ map (fun k => (k, render l DebugLevel (now w)
                                             (getMessage format args) []))
                        (sinks l)).
  { intros ->. unfold Debugf. rewrite log_written.
    rewrite (enabled_threshold _ _ DebugLevel) by assumption. reflexivity. }
  assert (Hr : forall m, exists members,
               render l DebugLevel (now w) m [] = JSONObject members
               /\ member "level" members = Some (VStr "DEBUG")
               /\ member "msg" members = Some (VStr m)).
  { intros m. unfold render. rewrite (wf_encoder _ Hwf). simpl.
    eexists. split; [reflexivity|]. split; reflexivity. }
  split; [reflexivity|]. split; [apply log_outcome|]. split; [exact Hw|].
  split; [|split; [apply Hr|split; [exact Hnone|]]].
  - intros Hne. unfold Debugf. rewrite log_world.
    rewrite (enabled_threshold _ _ T) by assumption.
    destruct T; try reflexivity. contradiction.
  - intros Ha Hf. rewrite (Hfmt Ha Hf) in Hw.
    split; [exact (Hfmt Ha Hf)|]. split; [exact Hw|apply Hr].
Qed.

Lemma log_onlyAppends (l : logger) (lvl : Level) (msg : string)
    (keyvals : list Field) (w : World) :
  onlyAppends w (snd (SugaredLogger_log (sugared l) lvl msg keyvals w)).
Proof.
  destruct (log_cells l lvl msg keyvals w) as [Hl Hr].
  split; [exact Hl|]. split; [exact Hr|]. split.
  - rewrite log_world. destruct (Core_Enabled _ _ _); reflexivity.
  - rewrite log_written. eexists. reflexivity.
Qed.

(** X16: no call of the facade, leveled or formatted, and no
    [SetLogLevel] with an unsupported name, changes a threshold, a
    rotator or the clock, or touches what was written before: each only
    appends to the writes. *)
Theorem logging_onlyAppends (l : logger) (w : World) :
  (forall s msg keyvals, onlyAppends w (snd (logCall s l msg keyvals w)))
  /\ (forall format args, onlyAppends w (snd (Printf l format args w)))
  /\ (forall format args, onlyAppends w (snd (Debugf l format args w)))
  /\ (forall name, supportedLevel name = false ->
                   onlyAppends w (snd (SetLogLevel l name w))).
Proof.
  split; [|split; [|split]].
  - intros s msg keyvals. rewrite logCall_eq. apply log_onlyAppends.
  - intros format args. apply log_onlyAppends.
  - intros format args. apply log_onlyAppends.
  - intros name Hbad. rewrite (SetLogLevel_unsupported_eq _ _ _ Hbad).
    apply log_onlyAppends.
Qed.

(** ** Rotation settings *)

(** X17: on a logger that holds a rotator, the two setters return, and
    after both, in either order, the rotator holds the new size and the
    new count with its file name and flags unchanged; no other rotator,
    no threshold and no write is touched. *)
Theorem rotation_setters (l : logger) (r : loc) (old : Rotator) (n m : Z) (w : World) :
  rotator l = Some r ->
  rotators w !! r = Some old ->
  let w1 := snd (SetLogRotationSize l n w) in
  let w2 := snd (SetLogRotationCount l m w1) in
  fst (SetLogRotationSize l n w) = Returned tt
  /\ fst (SetLogRotationCount l m w1) = Returned tt
  /\ rotators w2 !! r
     = Some (mkRotator (Filename old) n m (LocalTime old) (Compress old))
  /\ (forall r', r' <> r -> rotators w2 !! r' = rotators w !! r')
  /\ levels w2 = levels w
  /\ written w2 = written w
  /\ snd (SetLogRotationSize l n (snd (SetLogRotationCount l m w))) = w2.
Proof.
  intros Hr Hold w1 w2. subst w1 w2.
  unfold SetLogRotationSize, SetLogRotationCount, storeRotator.
  rewrite Hr. cbn [fst snd rotators levels written now].
  split; [reflexivity|]. split; [reflexivity|]. split; [|split].
  - unfold loc in *. rewrite !list_lookup_alter_eq, Hold. reflexivity.
  - intros r' Hne. rewrite !list_lookup_alter_ne by (intros E; apply Hne; symmetry; exact E).
    reflexivity.
  - split; [reflexivity|]. split; [reflexivity|].
    f_equal. apply list_eq. intros i. unfold loc in *.
    destruct (decide (r = i)) as [<-|Hne].
    + rewrite !list_lookup_alter_eq. destruct (rotators w !! r); reflexivity.
    + rewrite !list_lookup_alter_ne by exact Hne. reflexivity.
Qed.

(** ** The core option *)

(** X18: [withWrapCore] panics with "unknown encoding" exactly when the
    encoding is neither "json" nor "console"; otherwise the option it
    returns installs, whatever core the logger had, a core with no bound
    fields that writes to the given targets behind the given level cell,
    with the JSON encoder for "json" and the console encoder for
    "console", and keeps the stack trace level. *)
Theorem withWrapCore_outcome (ws : list Sink) (conf : zap_Config) (lv : loc) :
  (withWrapCore ws conf lv = Panicked "unknown encoding"
   <-> Encoding conf <> "json" /\ Encoding conf <> "console")
  /\ (forall wrap log,
        withWrapCore ws conf lv = Returned wrap ->
        core (wrap log)
        = NewCoreWith (if String.eqb (Encoding conf) "json"
                       then NewJSONEncoder (EncoderConfig conf)
                       else NewConsoleEncoder (EncoderConfig conf))
                      [] ws lv
        /\ addStack (wrap log) = addStack log).
Proof.
  unfold withWrapCore.
  destruct (String.eqb_spec (Encoding conf) "json") as [Hj|Hj].
  - split.
    + split; [discriminate|intros [Hne _]; contradiction].
    + intros wrap log [= <-]. split; reflexivity.
  - destruct (String.eqb_spec (Encoding conf) "console") as [Hc|Hc].
    + split.
      * split; [discriminate|intros [_ Hne]; contradiction].
      * intros wrap log [= <-]. split; reflexivity.
    + split.
      * split; [intros _; split; assumption|reflexivity].
      * intros wrap log Hw. discriminate.
Qed.

End Further.

(** * The further properties on the sample loggers *)

(** X1: a rotation size given twice, with a level option after it. *)
Lemma option_last_wins_witness :
  noneOfKind (WithRotationSize 2) [WithLogLevel "debug"] = true
  /\ rotationSize
       (applyOptions ([WithRotationSize 50] ++ WithRotationSize 2 :: [WithLogLevel "debug"])
                     (initialConfig (rt:=localRuntime) "MyService"))
     = 2%Z.
Proof.
  split; [reflexivity|].
  exact (option_last_wins [WithRotationSize 50] [WithLogLevel "debug"]
           (WithRotationSize 2) (initialConfig (rt:=localRuntime) "MyService") eq_refl).
Defined.

(** X2: an unsupported level name overridden by a supported one. *)
Lemma NewLogger_overridden_option_witness :
  optionKind (WithLogLevel "verbose") = optionKind (WithLogLevel "warn")
  /\ NewLogger (rt:=localRuntime) "MyService" "1.0.0"
       ([] ++ WithLogLevel "verbose" :: [WithOutput 7] ++ WithLogLevel "warn" :: [])
       emptyWorld
     = NewLogger (rt:=localRuntime) "MyService" "1.0.0"
         ([] ++ [WithOutput 7] ++ WithLogLevel "warn" :: []) emptyWorld.
Proof.
  split; [reflexivity|].
  exact (NewLogger_overridden_option (rt:=localRuntime) "MyService" "1.0.0"
           [] [WithOutput 7] [] (WithLogLevel "verbose") (WithLogLevel "warn")
           emptyWorld eq_refl).
Defined.

(** X3: a writer and a level, in both orders. *)
Lemma NewLogger_options_commute_witness :
  optionKind (WithOutput 7) <> optionKind (WithLogLevel "debug")
  /\ NewLogger (rt:=localRuntime) "MyService" "1.0.0"
       ([] ++ WithOutput 7 :: WithLogLevel "debug" :: []) emptyWorld
     = NewLogger (rt:=localRuntime) "MyService" "1.0.0"
         ([] ++ WithLogLevel "debug" :: WithOutput 7 :: []) emptyWorld.
Proof.
  assert (Hk : optionKind (WithOutput 7) <> optionKind (WithLogLevel "debug"))
    by discriminate.
  split; [exact Hk|].
  exact (NewLogger_options_commute (rt:=localRuntime) "MyService" "1.0.0"
           [] [] (WithOutput 7) (WithLogLevel "debug") emptyWorld Hk).
Defined.

(** X4: the capitalised name is not one of the six. *)
Lemma getZapLogLevel_names_witness :
  (forall lv, lv <> DPanicLevel -> "INFO" <> LowercaseString lv)
  /\ getZapLogLevel "INFO"
     = Panicked "unsupported log level INFO. debug, info, warn, error, panic and fatal are the only supported loglevels."
  /\ getZapLogLevel "info" = Returned InfoLevel.
Proof.
  assert (Hother : forall lv, lv <> DPanicLevel -> "INFO" <> LowercaseString lv)
    by (intros lv _; destruct lv; discriminate).
  split; [exact Hother|]. split.
  - exact (proj1 (proj2 (getZapLogLevel_names "INFO")) Hother).
  - apply (proj1 (getZapLogLevel_names "info") InfoLevel).
    split; [reflexivity|discriminate].
Defined.

(** X5: "warn" on the sample logger. *)
Lemma SetLogLevel_agrees_with_getZapLogLevel_witness :
  getZapLogLevel "warn" = Returned WarnLevel
  /\ SetLogLevel sampleLogger "warn" sampleWorld
     = (Returned tt, sampleWorldAt WarnLevel).
Proof.
  split; [reflexivity|].
  exact (proj1 (proj2 (SetLogLevel_agrees_with_getZapLogLevel sampleLogger "warn"
                         sampleWorld))
           WarnLevel eq_refl).
Defined.


(** X7: the rotator of the sample logger. *)
Lemma NewLogger_rotator_witness :
  NewLogger (rt:=localRuntime) "MyService" "1.0.0" [WithOutput 7] emptyWorld
  = (Returned (inl sampleLogger), sampleWorld)
  /\ rotator sampleLogger = Some 0
  /\ rotators sampleWorld = [mkRotator "/logs/myservice.log" 20 3 true false].
Proof.
  split; [exact sample_NewLogger|].
  exact (NewLogger_rotator (rt:=localRuntime) "MyService" "1.0.0"
           [WithOutput 7] emptyWorld sampleWorld sampleLogger sample_NewLogger).
Defined.

(** X8: the logger built with [WithLogLevel("error")] starts at error. *)
Lemma NewLogger_threshold_witness :
  NewLogger (rt:=localRuntime) "MyService" "1.0.0"
            [WithOutput 7; WithLogLevel "error"] emptyWorld
  = (Returned (inl quietLogger), quietWorld)
  /\ level quietLogger = 0
  /\ exists s,
       "error" = severityName s
       /\ threshold quietLogger quietWorld = Some (severityLevel s)
       /\ forall lvl, Core_Enabled (core (sugared quietLogger)) lvl quietWorld
                      = (levelZ (severityLevel s) <=? levelZ lvl)%Z.
Proof.
  split; [exact quiet_NewLogger|].
  exact (NewLogger_threshold (rt:=localRuntime) "MyService" "1.0.0"
           [WithOutput 7; WithLogLevel "error"] emptyWorld quietWorld quietLogger
           quiet_NewLogger).
Defined.

(** X11: a second logger built beside the sample one. *)
Lemma separate_loggers_independent_witness :
  is_Some (threshold sampleLogger sampleWorld)
  /\ exists l2 w',
       NewLogger (rt:=localRuntime) "Other" "2.0" [] sampleWorld = (Returned (inl l2), w')
       /\ level l2 <> level sampleLogger
       /\ threshold sampleLogger (snd (SetLogLevel l2 "fatal" w'))
          = threshold sampleLogger w'.
Proof.
  assert (Hcell : is_Some (threshold sampleLogger sampleWorld))
    by (eexists; reflexivity).
  split; [exact Hcell|].
  eexists. eexists. split; [reflexivity|].
  pose proof (separate_loggers_independent (rt:=localRuntime) "Other" "2.0" []
                sampleWorld _ sampleLogger _ Hcell eq_refl) as (Hne & _ & Hset & _).
  split; [exact Hne|apply Hset].
Defined.

(** X12: "error" set through a derived logger silences the parent's info
    call. *)
Lemma SetLogLevel_then_admission_witness :
  built (rt:=localRuntime) sampleLogger
  /\ derived sampleLogger (With sampleLogger [("k", VStr "v")])
  /\ is_Some (threshold sampleLogger sampleWorld)
  /\ written (snd (logCall SevInfo sampleLogger "ready" []
                     (snd (SetLogLevel (With sampleLogger [("k", VStr "v")])
                                       "error" sampleWorld))))
     = [].
Proof.
  assert (Hd : derived sampleLogger (With sampleLogger [("k", VStr "v")]))
    by (constructor; constructor).
  assert (Hcell : is_Some (threshold sampleLogger sampleWorld))
    by (eexists; reflexivity).
  split; [exact sample_built|]. split; [exact Hd|]. split; [exact Hcell|].
  exact (proj2 (proj2 (SetLogLevel_then_admission (rt:=localRuntime)
                         sampleLogger (With sampleLogger [("k", VStr "v")])
                         SevError SevInfo "ready" [] sampleWorld
                         sample_built Hd Hcell))).
Defined.

(** X13: at threshold fatal the panic call panics and writes nothing. *)
Lemma logCall_outcome_witness :
  built (rt:=localRuntime) sampleLogger
  /\ threshold sampleLogger (sampleWorldAt FatalLevel) = Some FatalLevel
  /\ Panic sampleLogger "boom" [] (sampleWorldAt FatalLevel)
     = (Panicked "boom", sampleWorldAt FatalLevel)
  /\ fst (logCall SevFatal sampleLogger "halt" [] (sampleWorldAt FatalLevel)) = Exited 1.
Proof.
  split; [exact sample_built|]. split; [reflexivity|].
  pose proof (logCall_outcome (rt:=localRuntime) SevFatal sampleLogger "boom" []
                (sampleWorldAt FatalLevel) FatalLevel sample_built eq_refl)
    as (_ & _ & Hpanic).
  split; [exact (Hpanic eq_refl)|].
  exact (proj1 (logCall_outcome (rt:=localRuntime) SevFatal sampleLogger "halt" []
                  (sampleWorldAt FatalLevel) FatalLevel sample_built eq_refl)).
Defined.

(** X14: an error record through two [With] in a row. *)
Lemma record_shape_witness :
  NewLogger (rt:=localRuntime) "MyService" "1.0.0" [WithOutput 7] emptyWorld
  = (Returned (inl sampleLogger), sampleWorld)
  /\ render (With (With sampleLogger [("a", VInt 1)]) [("b", VInt 2)])
            ErrorLevel 0 "no disk" [("c", VInt 3)]
     = sampleObject "ERROR" "no disk" "instance_1"
         [("a", VInt 1); ("b", VInt 2); ("c", VInt 3); ("stacktrace", VStack)].
Proof.
  split; [exact sample_NewLogger|].
  exact (proj1 (proj2 (record_shape (rt:=localRuntime) "MyService" "1.0.0"
                         [WithOutput 7] emptyWorld sampleWorld sampleLogger
                         [("a", VInt 1)] [("b", VInt 2)] ErrorLevel 0 "no disk"
                         [("c", VInt 3)] sample_NewLogger))).
Defined.

(** X15: at threshold debug the sample logger writes the formatted debug
    record; at info it drops it. *)
Lemma Debugf_at_debug_witness :
  built (rt:=localRuntime) sampleLogger
  /\ threshold sampleLogger (sampleWorldAt DebugLevel) = Some DebugLevel
  /\ [VStr "users"; VInt 3] <> []
  /\ "cache miss for %s after %d tries" <> ""
  /\ written (snd (Debugf (rt:=localRuntime) sampleLogger
                          "cache miss for %s after %d tries" [VStr "users"; VInt 3]
                          (sampleWorldAt DebugLevel)))
     = [(WriterSink 7,
         sampleObject "DEBUG" "cache miss for users after 3 tries" "instance_1" []);
        (RotatorSink 0,
         sampleObject "DEBUG" "cache miss for users after 3 tries" "instance_1" [])]
  /\ threshold sampleLogger sampleWorld = Some InfoLevel
  /\ InfoLevel <> DebugLevel
  /\ snd (Debugf (rt:=localRuntime) sampleLogger
                 "cache miss for %s after %d tries" [VStr "users"; VInt 3] sampleWorld)
     = sampleWorld.
Proof.
  assert (Ha : [VStr "users"; VInt 3] <> []) by discriminate.
  assert (Hf : "cache miss for %s after %d tries" <> "") by discriminate.
  assert (Hne : InfoLevel <> DebugLevel) by discriminate.
  split; [exact sample_built|]. split; [reflexivity|].
  split; [exact Ha|]. split; [exact Hf|].
  pose proof (Debugf_at_debug (rt:=localRuntime) sampleLogger
                "cache miss for %s after %d tries" [VStr "users"; VInt 3]
                (sampleWorldAt DebugLevel) DebugLevel sample_built eq_refl)
    as (_ & _ & _ & _ & _ & _ & Hfmt).
  destruct (Hfmt Ha Hf) as (_ & Hw & _).
  split; [exact (Hw eq_refl)|]. split; [reflexivity|]. split; [exact Hne|].
  pose proof (Debugf_at_debug (rt:=localRuntime) sampleLogger
                "cache miss for %s after %d tries" [VStr "users"; VInt 3]
                sampleWorld InfoLevel sample_built eq_refl)
    as (_ & _ & _ & Hdrop & _).
  exact (Hdrop Hne).
Defined.

(** X16: an unsupported name on the sample logger only appends. *)
Lemma logging_onlyAppends_witness :
  supportedLevel "verbose" = false
  /\ onlyAppends sampleWorld (snd (SetLogLevel sampleLogger "verbose" sampleWorld)).
Proof.
  split; [reflexivity|].
  exact (proj2 (proj2 (proj2 (logging_onlyAppends (rt:=localRuntime) sampleLogger
                                sampleWorld)))
           "verbose" eq_refl).
Defined.

(** X17: size 50 and count 5 on the sample logger. *)
Lemma rotation_setters_witness :
  rotator sampleLogger = Some 0
  /\ rotators sampleWorld !! 0 = Some (mkRotator "/logs/myservice.log" 20 3 true false)
  /\ rotators (snd (SetLogRotationCount sampleLogger 5
                      (snd (SetLogRotationSize sampleLogger 50 sampleWorld)))) !! 0
     = Some (mkRotator "/logs/myservice.log" 50 5 true false).
Proof.
  split; [reflexivity|]. split; [reflexivity|].
  exact (proj1 (proj2 (proj2 (rotation_setters sampleLogger 0
                                (mkRotator "/logs/myservice.log" 20 3 true false)
                                50 5 sampleWorld eq_refl eq_refl)))).
Defined.

(** X18: the console encoding, which [NewLogger] never passes. *)
Lemma withWrapCore_outcome_witness :
  exists wrap,
    withWrapCore [WriterSink 7]
      (mkZapConfig 1 "console" true
         (mkEncoderConfig "msg" "level" "time" "stacktrace"
                          CapitalLevelEncoder ISO8601TimeEncoder)) 0
    = Returned wrap
    /\ core (wrap (sugared sampleLogger))
       = NewCoreWith
           (NewConsoleEncoder
              (mkEncoderConfig "msg" "level" "time" "stacktrace"
                               CapitalLevelEncoder ISO8601TimeEncoder))
           [] [WriterSink 7] 0.
Proof.
  eexists. split; [reflexivity|].
  exact (proj1 (proj2 (withWrapCore_outcome [WriterSink 7]
                         (mkZapConfig 1 "console" true
                            (mkEncoderConfig "msg" "level" "time" "stacktrace"
                               CapitalLevelEncoder ISO8601TimeEncoder)) 0)
                  _ (sugared sampleLogger) eq_refl)).
Defined.
